(** * tower_schedule: recurrence rules, timestamp normalisation and the
      schedule synchronisation run

    A shallow embedding of
    [lib/ansible/modules/web_infrastructure/ansible_tower/tower_schedule.py].

    - Python strings are [string] (8-bit characters), Python ints are [Z],
      dictionaries are [gmap string value].
    - Dictionaries that the module copies and mutates live in a heap of
      objects addressed by location, so that aliasing is visible.
    - [module.fail_json] and [module.exit_json] end the run; the remote
      service, the YAML serialiser and the two helpers of
      [ansible.module_utils.ansible_tower] are collaborators, gathered in the
      class [Tower]. Every remote call the module makes itself (a name
      lookup, a call on the schedule resource) is logged in a trace; what
      the helpers send is theirs and is not logged.
    - [datetime.strptime] and [datetime.strftime] belong to the Python
      standard library. They are modelled after CPython's [Lib/_strptime.py]
      (the regular expression of each directive, matched with backtracking
      and [re.IGNORECASE], so that the leading zero of a field is optional
      as the library documents) and after what [strftime] writes on Linux:
      two zero-padded digits for every field but the year, which the C
      library writes in decimal without padding. Python 2 refuses to format
      a year before 1900; the interpreter is a field of [Tower]. *)

From Stdlib Require Import ZArith Ascii String List Lia.
From stdpp Require Import base option list strings gmap pretty.

Open Scope string_scope.
Open Scope list_scope.
Open Scope Z_scope.

(** ** Characters and strings *)

Definition is_digit (c : ascii) : bool :=
  (48 <=? nat_of_ascii c)%nat && (nat_of_ascii c <=? 57)%nat.

Definition in_range (lo hi c : ascii) : bool :=
  (nat_of_ascii lo <=? nat_of_ascii c)%nat && (nat_of_ascii c <=? nat_of_ascii hi)%nat.

Definition is_upper (c : ascii) : bool := in_range "A" "Z" c.

(** [str.lower] on one ASCII character. *)
Definition lower (c : ascii) : ascii :=
  if is_upper c then ascii_of_nat (nat_of_ascii c + 32) else c.

(** Equality of two characters under [re.IGNORECASE]. *)
Definition eq_nocase (a b : ascii) : bool := Ascii.eqb (lower a) (lower b).

Definition digit_of_char (c : ascii) : Z := Z.of_nat (nat_of_ascii c) - 48.
Definition char_of_digit (d : Z) : ascii := ascii_of_nat (Z.to_nat (48 + d)).

(** Decimal rendering, zero-padded to two and to four places. *)
Definition pad2 (n : Z) : string :=
  String (char_of_digit (n / 10 mod 10)) (String (char_of_digit (n mod 10)) "").

Definition pad4 (n : Z) : string :=
  String (char_of_digit (n / 1000 mod 10))
    (String (char_of_digit (n / 100 mod 10)) (pad2 n)).

(** [s] occurs in [t] as a contiguous substring. *)
Definition contains (t s : string) : Prop := ∃ pre post, t = pre +:+ s +:+ post.

(** [repr] of an ASCII string: single quotes unless the string holds a single
    quote and no double quote; backslash, the quote and control characters
    are escaped. *)
Definition hex_digit (n : nat) : ascii :=
  if (n <? 10)%nat then ascii_of_nat (48 + n) else ascii_of_nat (87 + n).

Fixpoint has_char (c : ascii) (s : string) : bool :=
  match s with
  | EmptyString => false
  | String c' s' => Ascii.eqb c c' || has_char c s'
  end.

Definition repr_char (q c : ascii) : string :=
  let n := nat_of_ascii c in
  if Ascii.eqb c "\" then "\\"
  else if Ascii.eqb c q then String "\" (String q "")
  else if (n =? 10)%nat then "\n"
  else if (n =? 13)%nat then "\r"
  else if (n =? 9)%nat then "\t"
  else if (n <? 32)%nat || (n =? 127)%nat
       then "\x" +:+ String (hex_digit (n / 16)) (String (hex_digit (n mod 16)) "")
  else String c "".

Fixpoint repr_body (q : ascii) (s : string) : string :=
  match s with
  | EmptyString => ""
  | String c s' => repr_char q c +:+ repr_body q s'
  end.

Definition dquote : ascii := ascii_of_nat 34.

Definition py_repr (s : string) : string :=
  let q : ascii := if has_char "'" s && negb (has_char dquote s) then dquote else "'"%char in
  String q (repr_body q s) +:+ String q "".

(** ** [datetime.strptime]

    [_strptime.TimeRE] turns a format into a regular expression: a directive
    [%c] becomes the named group of [c], any other character stands for
    itself. Only the six directives of the module's format are tabulated. *)

Inductive cclass :=
  | Digit                      (* \d *)
  | Range (lo hi : ascii)      (* [lo-hi] *)
  | Char (c : ascii).

Definition in_class (k : cclass) (c : ascii) : bool :=
  match k with
  | Digit => is_digit c
  | Range lo hi => in_range lo hi c
  | Char c' => Ascii.eqb c' c
  end.

(** One branch of an alternation is a sequence of character classes. *)
Definition directive_regex (d : ascii) : option (list (list cclass)) :=
  if Ascii.eqb d "Y" then Some [[Digit; Digit; Digit; Digit]]
  else if Ascii.eqb d "m" then
    Some [[Char "1"; Range "0" "2"]; [Char "0"; Range "1" "9"]; [Range "1" "9"]]
  else if Ascii.eqb d "d" then
    Some [[Char "3"; Range "0" "1"]; [Range "1" "2"; Digit]; [Char "0"; Range "1" "9"];
          [Range "1" "9"]; [Char " "; Range "1" "9"]]
  else if Ascii.eqb d "H" then
    Some [[Char "2"; Range "0" "3"]; [Range "0" "1"; Digit]; [Digit]]
  else if Ascii.eqb d "M" then Some [[Range "0" "5"; Digit]; [Digit]]
  else if Ascii.eqb d "S" then
    Some [[Char "6"; Range "0" "1"]; [Range "0" "5"; Digit]; [Digit]]
  else None.

Inductive token :=
  | TLit (c : ascii)
  | TGroup (d : ascii) (alts : list (list cclass)).

Inductive format_error :=
  | BadDirective (d : ascii)
  | StrayPercent.

(** [TimeRE.pattern]: scan the format for [%]. *)
Fixpoint pattern (format : string) : format_error + list token :=
  match format with
  | EmptyString => inr []
  | String "%" EmptyString => inl StrayPercent
  | String "%" (String d rest) =>
      match directive_regex d with
      | None => inl (BadDirective d)
      | Some alts =>
          match pattern rest with
          | inl e => inl e
          | inr ts => inr (TGroup d alts :: ts)
          end
      end
  | String c rest =>
      match pattern rest with
      | inl e => inl e
      | inr ts => inr (TLit c :: ts)
      end
  end.

(** A sequence of classes against the head of the data. *)
Fixpoint match_seq (ks : list cclass) (s : string) : option (string * string) :=
  match ks with
  | [] => Some (EmptyString, s)
  | k :: ks' =>
      match s with
      | EmptyString => None
      | String c s' =>
          if in_class k c then
            match match_seq ks' s' with
            | Some (m, rest) => Some (String c m, rest)
            | None => None
            end
          else None
      end
  end.

(** The first element of [l] on which [f] succeeds: the order in which a
    backtracking matcher tries the branches of an alternation. *)
Definition first_some {A B : Type} (f : A → option B) : list A → option B :=
  fix go l :=
    match l with
    | [] => None
    | a :: l' => match f a with Some b => Some b | None => go l' end
    end.

(** [format_regex.match(data_string)]: the groups that matched and the index
    where the match ends, given as the unconsumed rest. *)
Fixpoint regex_match (ts : list token) (s : string) : option (list (ascii * string) * string) :=
  match ts with
  | [] => Some ([], s)
  | TLit c :: ts' =>
      match s with
      | EmptyString => None
      | String c' s' => if eq_nocase c c' then regex_match ts' s' else None
      end
  | TGroup d alts :: ts' =>
      first_some
        (λ ks, match match_seq ks s with
               | None => None
               | Some (m, rest) =>
                   match regex_match ts' rest with
                   | None => None
                   | Some (gs, r) => Some ((d, m) :: gs, r)
                   end
               end) alts
  end.

(** [int(text)] for the text of a group: leading blanks are skipped, the rest
    must be decimal digits. *)
Fixpoint int_digits (acc : Z) (s : string) : option Z :=
  match s with
  | EmptyString => Some acc
  | String c s' =>
      if is_digit c then int_digits (10 * acc + digit_of_char c) s' else None
  end.

Fixpoint py_int (s : string) : option Z :=
  match s with
  | EmptyString => None
  | String c s' => if Ascii.eqb c " " then py_int s' else int_digits 0 s
  end.

Record datetime := mk_datetime
  { year : Z; month : Z; day : Z; hour : Z; minute : Z; second : Z }.

Definition is_leap (y : Z) : bool :=
  (y mod 4 =? 0) && (negb (y mod 100 =? 0) || (y mod 400 =? 0)).

Definition days_in_month (y m : Z) : Z :=
  match m with
  | 2 => if is_leap y then 29 else 28
  | 4 | 6 | 9 | 11 => 30
  | _ => 31
  end.

(** The range checks of the [date] and [datetime] constructors. [None] means
    that the fields are accepted, otherwise the text of the [ValueError]. *)
Definition check_date (y m d : Z) : option string :=
  if (y <? 1) || (9999 <? y) then Some ("year " +:+ pretty y +:+ " is out of range")
  else if (m <? 1) || (12 <? m) then Some "month must be in 1..12"
  else if (d <? 1) || (days_in_month y m <? d) then Some "day is out of range for month"
  else None.

Definition check_time (h mi s : Z) : option string :=
  if (h <? 0) || (23 <? h) then Some "hour must be in 0..23"
  else if (mi <? 0) || (59 <? mi) then Some "minute must be in 0..59"
  else if (s <? 0) || (59 <? s) then Some "second must be in 0..59"
  else None.

(** The loop of [_strptime] over the groups that matched; a field without a
    group keeps its default. *)
Definition default_fields : datetime := mk_datetime 1900 1 1 0 0 0.

Definition set_field (d : ascii) (n : Z) (t : datetime) : datetime :=
  if Ascii.eqb d "Y" then mk_datetime n (month t) (day t) (hour t) (minute t) (second t)
  else if Ascii.eqb d "m" then mk_datetime (year t) n (day t) (hour t) (minute t) (second t)
  else if Ascii.eqb d "d" then mk_datetime (year t) (month t) n (hour t) (minute t) (second t)
  else if Ascii.eqb d "H" then mk_datetime (year t) (month t) (day t) n (minute t) (second t)
  else if Ascii.eqb d "M" then mk_datetime (year t) (month t) (day t) (hour t) n (second t)
  else if Ascii.eqb d "S" then mk_datetime (year t) (month t) (day t) (hour t) (minute t) n
  else t.

Fixpoint convert_groups (gs : list (ascii * string)) (t : datetime) : string + datetime :=
  match gs with
  | [] => inr t
  | (d, text) :: gs' =>
      match py_int text with
      | None => inl ("invalid literal for int() with base 10: " +:+ py_repr text)
      | Some n => convert_groups gs' (set_field d n t)
      end
  end.

Definition format_error_message (e : format_error) (format : string) : string :=
  match e with
  | BadDirective d =>
      "'" +:+ String d "" +:+ "' is a bad directive in format " +:+ py_repr format
  | StrayPercent => "stray % in format " +:+ py_repr format
  end.

(** [datetime.strptime(data_string, format)]: the parsed value, or the text
    of the [ValueError] it raises. *)
Definition strptime (data_string format : string) : string + datetime :=
  match pattern format with
  | inl e => inl (format_error_message e format)
  | inr ts =>
      match regex_match ts data_string with
      | None =>
          inl ("time data " +:+ py_repr data_string +:+
               " does not match format " +:+ py_repr format)
      | Some (gs, String c rest) =>
          inl ("unconverted data remains: " +:+ String c rest)
      | Some (gs, EmptyString) =>
          match convert_groups gs default_fields with
          | inl msg => inl msg
          | inr t =>
              match check_date (year t) (month t) (day t) with
              | Some msg => inl msg
              | None =>
                  match check_time (hour t) (minute t) (second t) with
                  | Some msg => inl msg
                  | None => inr t
                  end
              end
          end
      end
  end.

(** ** [datetime.strftime]

    The directives as the C library of Linux writes them: the year in
    decimal, as many digits as it has, and two zero-padded digits for the
    other fields. *)
Definition render_directive (d : ascii) (t : datetime) : string :=
  if Ascii.eqb d "Y" then pretty (year t)
  else if Ascii.eqb d "m" then pad2 (month t)
  else if Ascii.eqb d "d" then pad2 (day t)
  else if Ascii.eqb d "H" then pad2 (hour t)
  else if Ascii.eqb d "M" then pad2 (minute t)
  else if Ascii.eqb d "S" then pad2 (second t)
  else String "%" (String d "").

(** [time.strftime(format, t.timetuple())]. *)
Fixpoint time_strftime (t : datetime) (format : string) : string :=
  match format with
  | EmptyString => ""
  | String "%" (String d rest) => render_directive d t +:+ time_strftime t rest
  | String c rest => String c (time_strftime t rest)
  end.

(** The interpreters the module runs under. *)
Inductive python := Python2 | Python3.

(** [datetime.strftime(t, format)]: the text, or the message of the
    [ValueError] that Python 2 raises for a year before 1900. *)
Definition strftime (py : python) (t : datetime) (format : string) : string + string :=
  match py with
  | Python2 =>
      if year t <? 1900
      then inl ("year=" +:+ pretty (year t)
                +:+ " is before 1900; the datetime strftime() methods require year >= 1900")
      else inr (time_strftime t format)
  | Python3 => inr (time_strftime t format)
  end.

(** ** Python values, exceptions and the object heap *)

(** The values a module parameter can hold. [VObj] is a reference to an
    object the module never looks into (the [extra_data] dictionary). *)
Inductive value :=
  | VNone
  | VBool (b : bool)
  | VInt (n : Z)
  | VStr (s : string)
  | VObj (o : positive).

#[global] Instance value_eq_dec : EqDecision value.
Proof. solve_decision. Defined.

Abbreviation dict := (gmap string value).

Inductive exn_class :=
  | NotFound
  | ConnectionError
  | BadRequest
  | KeyError
  | TypeError
  | OtherError (name : string).

(** An exception: its class and [str(excinfo)]. *)
Record exn := mk_exn { class_of : exn_class; message : string }.

(** What the module reports when it ends: [fail_json(msg=, changed=)] or
    [exit_json] with the output record as keyword arguments. *)
Inductive report :=
  | FailJson (msg : string) (changed : bool)
  | ExitJson (output : dict).

(** The collaborators of the module and the interpreter that runs it.
    [remote] is the state of the remote service; every operation on it may
    change it and may raise. The two helpers of
    [ansible.module_utils.ansible_tower] may end the run themselves ([inl]
    and [Some]); [tower_auth_config] may also consume connection options
    from [module.params]. *)
Class Tower := {
  interpreter : python;
  remote : Type;
  obj_truth : positive → bool;
  obj_str : positive → string;
  yaml_dump : value → string;
  resource_get : string → string → value → remote → (exn + dict) * remote;
  schedule_modify : dict → remote → (exn + dict) * remote;
  schedule_delete : dict → remote → (exn + dict) * remote;
  tower_auth_config : dict → string + dict;
  tower_check_mode : remote → option string * remote;
}.

(** The remote calls the module makes in a run, in the order they are made,
    with the arguments passed and what came back. *)
Inductive event :=
  | ELookup (kind field : string) (name : value) (res : exn + dict)
  | EModify (params : dict) (res : exn + dict)
  | EDelete (params : dict) (res : exn + dict).

(** A name lookup; a lookup that came back with an identifier; a lookup that
    raised [NotFound]. *)
Definition is_lookup (e : event) : bool :=
  match e with ELookup _ _ _ _ => true | _ => false end.

Definition resolved (e : event) : bool :=
  match e with
  | ELookup _ _ _ (inr result) => bool_decide (is_Some (result !! "id"))
  | _ => false
  end.

Definition raised_not_found (e : event) : bool :=
  match e with
  | ELookup _ _ _ (inl x) => match class_of x with NotFound => true | _ => false end
  | _ => false
  end.

Definition loc := nat.

Section Run.
Context `{T : Tower}.

Record world := mk_world
  { heap : list dict; remote_st : remote; trace : list event }.

Definition set_heap (h : list dict) (w : world) : world :=
  mk_world h (remote_st w) (trace w).

Definition log (e : event) (r : remote) (w : world) : world :=
  mk_world (heap w) r (trace w ++ [e]).

(** How a computation ends: with a value, with the module's report, inside
    a helper, or with an exception nobody caught. *)
Inductive outcome (A : Type) :=
  | Ret (a : A)
  | Exit (r : report)
  | Halt (why : string)
  | Raise (e : exn).
Global Arguments Ret {A} a.
Global Arguments Exit {A} r.
Global Arguments Halt {A} why.
Global Arguments Raise {A} e.

Definition M (A : Type) : Type := world → outcome A * world.

Definition ret {A} (a : A) : M A := λ w, (Ret a, w).

Definition bind {A B} (m : M A) (f : A → M B) : M B :=
  λ w, match m w with
       | (Ret a, w') => f a w'
       | (Exit r, w') => (Exit r, w')
       | (Halt why, w') => (Halt why, w')
       | (Raise e, w') => (Raise e, w')
       end.

Notation "x <- m ; f" := (bind m (λ x, f))
  (at level 20, m at level 100, f at level 200, only parsing).
Notation "' x <- m ; f" := (bind m (λ x, f))
  (at level 20, x pattern, m at level 100, f at level 200, only parsing).
Notation "m ;; f" := (bind m (λ _, f))
  (at level 100, f at level 200, only parsing, right associativity).

Definition raise {A} (c : exn_class) (msg : string) : M A :=
  λ w, (Raise (mk_exn c msg), w).

Definition fail_json {A} (msg : string) (changed : bool) : M A :=
  λ w, (Exit (FailJson msg changed), w).

Definition exit_json {A} (output : dict) : M A :=
  λ w, (Exit (ExitJson output), w).

(** [try: m except classes as e: h e]. *)
Definition try_except {A} (m : M A) (caught : exn_class → bool) (h : exn → M A) : M A :=
  λ w, match m w with
       | (Raise e, w') => if caught (class_of e) then h e w' else (Raise e, w')
       | res => res
       end.

Definition lift {A} (r : exn + A) : M A :=
  match r with
  | inl e => λ w, (Raise e, w)
  | inr a => ret a
  end.

Fixpoint for_each {A} (l : list A) (body : A → M unit) : M unit :=
  match l with
  | [] => ret tt
  | a :: l' => body a ;; for_each l' body
  end.

Fixpoint fold_each {A S} (l : list A) (body : A → S → M S) (s : S) : M S :=
  match l with
  | [] => ret s
  | a :: l' => s' <- body a s; fold_each l' body s'
  end.

(** *** Dictionaries on the heap *)

Definition key_error (k : string) : exn := mk_exn KeyError (py_repr k).

(** [d[k]] on a dictionary value. *)
Definition getitem (d : dict) (k : string) : exn + value :=
  match d !! k with
  | Some v => inr v
  | None => inl (key_error k)
  end.

Definition read (l : loc) : M dict :=
  λ w, match heap w !! l with
       | Some d => (Ret d, w)
       | None => (Raise (mk_exn (OtherError "ReferenceError") ""), w)
       end.

Definition write (l : loc) (d : dict) : M unit :=
  λ w, (Ret tt, set_heap (<[l := d]> (heap w)) w).

(** [p.copy()]: a new object with the same items. *)
Definition dict_copy (l : loc) : M loc :=
  d <- read l;
  λ w, (Ret (length (heap w)), set_heap (heap w ++ [d]) w).

Definition dict_getitem (l : loc) (k : string) : M value :=
  d <- read l; lift (getitem d k).

(** [p.get(k)]. *)
Definition dict_get (l : loc) (k : string) : M value :=
  d <- read l; ret (default VNone (d !! k)).

(** [p.pop(k)]. *)
Definition dict_pop (l : loc) (k : string) : M value :=
  d <- read l;
  v <- lift (getitem d k);
  write l (delete k d);;
  ret v.

(** [p[k] = v]. *)
Definition dict_setitem (l : loc) (k : string) (v : value) : M unit :=
  d <- read l; write l (<[k := v]> d).

(** [del p[k]]. *)
Definition dict_delitem (l : loc) (k : string) : M unit :=
  d <- read l;
  _ <- lift (getitem d k);
  write l (delete k d).

(** [k in p]. *)
Definition dict_contains (l : loc) (k : string) : M bool :=
  d <- read l; ret (bool_decide (is_Some (d !! k))).

(** [p.update(u)]: the items of [u] win. *)
Definition dict_update (l : loc) (u : dict) : M unit :=
  d <- read l; write l (u ∪ d).

(** *** Python operators on values *)

(** [v == 'literal']. *)
Definition py_eq_str (v : value) (s : string) : bool :=
  match v with
  | VStr s' => bool_decide (s' = s)
  | _ => false
  end.

(** Truth value of [v] in [if v:]. *)
Definition truthy (v : value) : bool :=
  match v with
  | VNone => false
  | VBool b => b
  | VInt n => negb (n =? 0)
  | VStr s => negb (bool_decide (s = ""))
  | VObj o => obj_truth o
  end.

(** [str(v)], which is what [{}] in [str.format] renders. *)
Definition py_str (v : value) : string :=
  match v with
  | VNone => "None"
  | VBool true => "True"
  | VBool false => "False"
  | VInt n => pretty n
  | VStr s => s
  | VObj o => obj_str o
  end.

Definition is_not_none (v : value) : bool :=
  match v with VNone => false | _ => true end.

(** *** Remote calls *)

(** [tower_cli.get_resource(kind).get] with the keyword [field] set to
    [name]. *)
Definition get_resource_get (kind field : string) (name : value) : M dict :=
  λ w, let '(res, r) := resource_get kind field name (remote_st w) in
       let w' := log (ELookup kind field name res) r w in
       match res with
       | inl e => (Raise e, w')
       | inr d => (Ret d, w')
       end.

(** [schedule.modify] with the items of [params] as keyword arguments. *)
Definition call_modify (l : loc) : M dict :=
  params <- read l;
  λ w, let '(res, r) := schedule_modify params (remote_st w) in
       let w' := log (EModify params res) r w in
       match res with
       | inl e => (Raise e, w')
       | inr d => (Ret d, w')
       end.

(** [schedule.delete] with the items of [params] as keyword arguments. *)
Definition call_delete (l : loc) : M dict :=
  params <- read l;
  λ w, let '(res, r) := schedule_delete params (remote_st w) in
       let w' := log (EDelete params res) r w in
       match res with
       | inl e => (Raise e, w')
       | inr d => (Ret d, w')
       end.

(** [tower_auth_config(module)] with [module.params] at [l]. *)
Definition auth_config (l : loc) : M unit :=
  d <- read l;
  match tower_auth_config d with
  | inl why => λ w, (Halt why, w)
  | inr d' => write l d'
  end.

(** [tower_check_mode(module)]. *)
Definition check_mode : M unit :=
  λ w, match tower_check_mode (remote_st w) with
       | (Some why, r) => (Halt why, mk_world (heap w) r (trace w))
       | (None, r) => (Ret tt, mk_world (heap w) r (trace w))
       end.

(** ** The module *)

(** [parse_datetime_string(module, dt_string)]. A [ValueError] of either
    library call is turned into [fail_json]; anything but a string makes
    [strptime] raise a [TypeError], which is not caught. *)
Definition parse_datetime_string (dt_string : value) : M string :=
  match dt_string with
  | VStr s =>
      match strptime s "%Y-%m-%dT%H:%M:%SZ" with
      | inr dt =>
          match strftime interpreter dt "%Y%m%dT%H%M%SZ" with
          | inr result => ret result
          | inl excinfo =>
              fail_json ("Failed to update schedule, unable to parse datetime "
                         +:+ s +:+ ": " +:+ excinfo) false
          end
      | inl excinfo =>
          fail_json ("Failed to update schedule, unable to parse datetime "
                     +:+ s +:+ ": " +:+ excinfo) false
      end
  | _ => raise TypeError "strptime() argument 1 must be str"
  end.

Definition unit_map : gmap string string :=
  list_to_map [("minute", "MINUTELY"); ("day", "DAILY"); ("hour", "HOURLY");
               ("runonce", "DAILY")].

(** [unit_map[freq_unit]]. *)
Definition unit_map_getitem (freq_unit : value) : exn + string :=
  match freq_unit with
  | VStr u =>
      match unit_map !! u with
      | Some f => inr f
      | None => inl (key_error u)
      end
  | v => inl (mk_exn KeyError (py_str v))
  end.

(** [build_rrule(startdate, freq, freq_unit)]. *)
Definition build_rrule (startdate : string) (freq freq_unit : value) : exn + string :=
  match unit_map_getitem freq_unit with
  | inl e => inl e
  | inr f =>
      let result := "DTSTART:" +:+ startdate +:+ " RRULE:FREQ=" +:+ f
                    +:+ ";INTERVAL=" +:+ py_str freq in
      if py_eq_str freq_unit "runonce" then inr (result +:+ "COUNT=1") else inr result
  end.

(** [update_fields(p)]. [field_map] and [params_update] never leave the
    function, so they are plain values. *)
Definition field_map : list (string * string) := [].

Definition update_fields (p : loc) : M loc :=
  params <- dict_copy p;
  params_update <-
    fold_each field_map
      (λ '(old_k, new_k) (u : dict), v <- dict_pop params old_k; ret (<[new_k := v]> u))
      (∅ : dict);
  extra_data <- dict_get params "extra_data";
  let params_update : dict :=
    if is_not_none extra_data
    then <["extra_data" := VStr (yaml_dump extra_data)]> params_update
    else params_update in
  dict_update params params_update;;
  ret params.

(** [update_resources(module, p)]. The items of [identity_map] are visited
    in the order they are written. *)
Definition identity_map : list (string * string) :=
  [("job_template", "name"); ("project", "name"); ("inventory_source", "name")].

Definition is_not_found (c : exn_class) : bool :=
  match c with NotFound => true | _ => false end.

Definition resolve (params : loc) (kv : string * string) : M unit :=
  let '(k, v) := kv in
  try_except
    (name <- dict_getitem params k;
     if truthy name then
       result <- get_resource_get k v name;
       id <- lift (getitem result "id");
       dict_setitem params k id
     else
       present <- dict_contains params k;
       if present then dict_delitem params k else ret tt)
    is_not_found
    (λ excinfo, fail_json ("Failed to update schedule: " +:+ message excinfo) false).

Definition update_resources (p : loc) : M loc :=
  params <- dict_copy p;
  for_each identity_map (resolve params);;
  ret params.

Definition is_request_error (c : exn_class) : bool :=
  match c with
  | ConnectionError | BadRequest | NotFound => true
  | _ => false
  end.

(** The [try] block of [main]: the call and, after [modify], the identifier
    stored in [json_output]. *)
Definition dispatch (state : value) (params : loc) (json_output : dict) : M (dict * dict) :=
  try_except
    (if py_eq_str state "absent" then
       result <- call_delete params;
       ret (result, json_output)
     else
       result <- call_modify params;
       id <- lift (getitem result "id");
       ret (result, <["id" := id]> json_output))
    is_request_error
    (λ excinfo, fail_json ("Failed to update schedule: " +:+ message excinfo) false).

(** [main()], with [module.params] at [module_params]. The argument spec
    and the [TowerModule] have done their work when the model starts;
    [settings.runtime_values] and [tower_cli.get_resource('schedule')] make
    no call and leave no trace in the model. *)
Definition main (module_params : loc) : M unit :=
  name <- dict_get module_params "name";
  state <- dict_pop module_params "state";
  frequency <- dict_pop module_params "frequency";
  frequency_unit <- dict_pop module_params "frequency_unit";
  start <- dict_pop module_params "start";
  let json_output : dict := <["state" := state]> {["schedule" := name]} in
  auth_config module_params;;
  check_mode;;
  params <- update_resources module_params;
  params <- update_fields params;
  dict_setitem params "create_on_missing" (VBool true);;
  dict_setitem params "enabled" (VBool (negb (py_eq_str state "disabled")));;
  dtstart <- parse_datetime_string start;
  rrule <- lift (build_rrule dtstart frequency frequency_unit);
  dict_setitem params "rrule" (VStr rrule);;
  '(result, json_output) <- dispatch state params json_output;
  changed <- lift (getitem result "changed");
  exit_json (<["changed" := changed]> json_output).

(** A run of the module: the heap holds [module.params] and nothing else. *)
Definition run_module (module_params : dict) (r : remote) : outcome unit * world :=
  main 0%nat (mk_world [module_params] r []).

(** ** Proof devices: the lookups of [update_resources] as a function of the
    dictionary

    [resolve_item] is one turn of the loop of [update_resources] with the
    heap left out: what it ends with, the dictionary being filled, the
    remote state and the calls made. [resolve_all] is the whole loop. They
    serve the proofs only; [run_resolve] and [run_for_each_resolve] relate
    them to the heap program. *)

Definition resolve_item (kv : string * string) (x : dict) (r : remote)
  : outcome unit * dict * remote * list event :=
  let '(k, v) := kv in
  match x !! k with
  | None => (Raise (key_error k), x, r, [])
  | Some name =>
      if truthy name then
        let '(res, r') := resource_get k v name r in
        match res with
        | inl e =>
            (if is_not_found (class_of e)
             then Exit (FailJson ("Failed to update schedule: " +:+ message e) false)
             else Raise e,
             x, r', [ELookup k v name res])
        | inr result =>
            match result !! "id" with
            | Some id => (Ret tt, <[k := id]> x, r', [ELookup k v name res])
            | None => (Raise (key_error "id"), x, r', [ELookup k v name res])
            end
        end
      else (Ret tt, delete k x, r, [])
  end.

Fixpoint resolve_all (l : list (string * string)) (x : dict) (r : remote)
  : outcome unit * dict * remote * list event :=
  match l with
  | [] => (Ret tt, x, r, [])
  | kv :: l' =>
      match resolve_item kv x r with
      | (Ret _, x', r', evs) =>
          let '(o, x'', r'', evs') := resolve_all l' x' r' in
          (o, x'', r'', evs ++ evs')
      | res => res
      end
  end.

(** The dictionary [update_fields] returns for a copy of [d]. *)
Definition updated_fields (d : dict) : dict :=
  let extra_data := default VNone (d !! "extra_data") in
  (if is_not_none extra_data
   then <["extra_data" := VStr (yaml_dump extra_data)]> (∅ : dict)
   else ∅) ∪ d.

(** What the [try] block of [main] makes of the answer of the remote call. *)
Definition dispatched (state : value) (json_output : dict) (res : exn + dict)
  : outcome (dict * dict) :=
  match res with
  | inl e =>
      if is_request_error (class_of e)
      then Exit (FailJson ("Failed to update schedule: " +:+ message e) false)
      else Raise e
  | inr result =>
      if py_eq_str state "absent" then Ret (result, json_output)
      else match result !! "id" with
           | Some id => Ret (result, <["id" := id]> json_output)
           | None => Raise (key_error "id")
           end
  end.

(** [module.params] once [main] has popped the four keys it handles
    itself. *)
Definition popped (d : dict) : dict :=
  delete "start" (delete "frequency_unit" (delete "frequency" (delete "state" d))).



End Run.

(** ** The fixed timestamp pattern, as the specification words it *)

(** A string has a shape when it is as long as the shape and every
    character passes the test at its place. *)
Fixpoint has_shape (shape : list (ascii → bool)) (s : string) : bool :=
  match shape, s with
  | [], EmptyString => true
  | f :: shape', String c s' => f c && has_shape shape' s'
  | _, _ => false
  end.

(** YYYY-MM-DDTHH:MM:SSZ: digits, with the separators and the final Z in
    their places. *)
Definition fixed_pattern : list (ascii → bool) :=
  [is_digit; is_digit; is_digit; is_digit; Ascii.eqb "-";
   is_digit; is_digit; Ascii.eqb "-"; is_digit; is_digit; Ascii.eqb "T";
   is_digit; is_digit; Ascii.eqb ":"; is_digit; is_digit; Ascii.eqb ":";
   is_digit; is_digit; Ascii.eqb "Z"].

Definition matches_fixed_pattern (s : string) : bool := has_shape fixed_pattern s.

(** The number written by the digits of [s], and the number written by the
    [n] characters of [s] from index [i] on. *)
Fixpoint decimal (acc : Z) (s : string) : Z :=
  match s with
  | EmptyString => acc
  | String c s' => decimal (10 * acc + digit_of_char c) s'
  end.

Definition number_at (i n : nat) (s : string) : Z := decimal 0 (substring i n s).

(** The fields of a string of the fixed pattern denote a date of the
    calendar and a time of the day. *)
Definition valid_calendar (s : string) : bool :=
  let y := number_at 0 4 s in
  let m := number_at 5 2 s in
  let d := number_at 8 2 s in
  (1 <=? y) && (1 <=? m) && (m <=? 12) && (1 <=? d) && (d <=? days_in_month y m)
  && (number_at 11 2 s <=? 23) && (number_at 14 2 s <=? 59) && (number_at 17 2 s <=? 59).

(** The compact form YYYYMMDDTHHMMSSZ: the same characters without the
    separators. *)
Definition is_separator (c : ascii) : bool := Ascii.eqb c "-" || Ascii.eqb c ":".

Fixpoint compact (s : string) : string :=
  match s with
  | EmptyString => ""
  | String c s' => if is_separator c then compact s' else String c (compact s')
  end.

(** ** Proof devices for the timestamp *)

Definition digit_chars : list ascii := ["0"; "1"; "2"; "3"; "4"; "5"; "6"; "7"; "8"; "9"]%char.

Definition num2 (a b : ascii) : Z := decimal 0 (String a (String b "")).
Definition num4 (a b c d : ascii) : Z :=
  decimal 0 (String a (String b (String c (String d "")))).

(** The first branch of [alts] that can take the head of [a b ...] is a
    two-character branch, and it takes [a b]. *)
Fixpoint first_two (alts : list (list cclass)) (a b : ascii) : bool :=
  match alts with
  | [] => false
  | [k1; k2] :: alts' =>
      if in_class k1 a && in_class k2 b then true else first_two alts' a b
  | [k1] :: alts' => negb (in_class k1 a) && first_two alts' a b
  | _ => false
  end.

Definition alts_of (d : ascii) : list (list cclass) := default [] (directive_regex d).

(** [lo <= num2 a b <= hi] puts [a b] in the language of the directive. *)
Definition in_directive (d : ascii) (lo hi : Z) (a b : ascii) : bool :=
  implb ((lo <=? num2 a b) && (num2 a b <=? hi)) (first_two (alts_of d) a b).

(** ** A test double for the collaborators

    Lookups know one project, git project, with identifier 7; the schedule
    calls always succeed; the helpers let every run go on. The remote state
    counts the calls. The interpreter is Python 3. *)
Definition demo_tower : Tower := {|
  interpreter := Python3;
  remote := nat;
  obj_truth := λ _, true;
  obj_str := λ _, "{}";
  yaml_dump := λ _, "{}";
  resource_get := λ kind field name r,
    (if bool_decide (name = VStr "git project")
     then inr {["id" := VInt 7]}
     else inl (mk_exn NotFound "The requested object could not be found."),
     S r);
  schedule_modify := λ params r,
    (inr (<["changed" := VBool true]> {["id" := VInt 42]}), S r);
  schedule_delete := λ params r, (inr {["changed" := VBool true]}, S r);
  tower_auth_config := λ d, inr d;
  tower_check_mode := λ r, (None, r);
|}.

(** [module.params] as the argument spec fills it, for a schedule on a
    project every 30 minutes. *)
Definition demo_params (state project start : value) : dict :=
  list_to_map
    [("name", VStr "nightly"); ("state", state); ("description", VStr "");
     ("job_template", VNone); ("job_type", VNone); ("project", project);
     ("inventory_source", VNone); ("start", start); ("frequency", VInt 30);
     ("frequency_unit", VStr "minute"); ("extra_data", VNone); ("limit", VStr "")].

(** The first state of the remote service, an empty world, and a run of the
    module against the test double. *)
Definition demo_remote : @remote demo_tower := 0%nat.
Definition demo_world : @world demo_tower := @mk_world demo_tower [] demo_remote [].

Abbreviation demo_run state project start :=
  (@run_module demo_tower (demo_params state project start) demo_remote).

(** ** Definitions for the further properties *)

(** Some two-character branch of [alts] takes [a b]. *)
Definition two_of (alts : list (list cclass)) (a b : ascii) : bool :=
  existsb (λ ks, match ks with
                 | [k1; k2] => in_class k1 a && in_class k2 b
                 | _ => false
                 end) alts.

(** Every branch of [alts] is one or two characters long. *)
Definition short_alts (alts : list (list cclass)) : bool :=
  forallb (λ ks, match ks with [_] | [_; _] => true | _ => false end) alts.

(** The compact pattern YYYYMMDDTHHMMSSZ. *)
Definition compact_pattern : list (ascii → bool) :=
  [is_digit; is_digit; is_digit; is_digit; is_digit; is_digit; is_digit; is_digit;
   Ascii.eqb "T"; is_digit; is_digit; is_digit; is_digit; is_digit; is_digit;
   Ascii.eqb "Z"].

(** The fields of a string of the compact pattern denote a date of the
    calendar and a time of the day. *)
Definition valid_compact (s : string) : bool :=
  let y := number_at 0 4 s in
  let m := number_at 4 2 s in
  let d := number_at 6 2 s in
  (1 <=? y) && (1 <=? m) && (m <=? 12) && (1 <=? d) && (d <=? days_in_month y m)
  && (number_at 9 2 s <=? 23) && (number_at 11 2 s <=? 59) && (number_at 13 2 s <=? 59).

(** The five two-digit fields are in the languages of their directives. *)
Definition fields_in_language (m1 m2 d1 d2 h1 h2 mi1 mi2 s1 s2 : ascii) : bool :=
  two_of (alts_of "m") m1 m2 && two_of (alts_of "d") d1 d2
  && two_of (alts_of "H") h1 h2 && two_of (alts_of "M") mi1 mi2
  && two_of (alts_of "S") s1 s2.

(** The names [unit_map] has an entry for. *)
Definition unit_choices : list string := ["minute"; "day"; "hour"; "runonce"].

(** The parameters [update_resources] resolves. *)
Definition target_keys : list string := ["job_template"; "project"; "inventory_source"].

(** How a lookup that raised ends the function that made it. *)
Definition lookup_failure (e : exn) : outcome unit :=
  if is_not_found (class_of e)
  then Exit (FailJson ("Failed to update schedule: " +:+ message e) false)
  else Raise e.

(** The keys [main] and [update_fields] write before the call. *)
Definition written_keys : list string :=
  ["extra_data"; "create_on_missing"; "enabled"; "rrule"].

(** The parameters [main] pops from [module.params]. *)
Definition popped_keys : list string := ["state"; "frequency"; "frequency_unit"; "start"].


(** A call on the schedule resource with parameters [p] that came back
    with [res]. *)
Definition schedule_call (p : dict) (res : exn + dict) (e : event) : Prop :=
  e = EModify p res ∨ e = EDelete p res.

(** A second test double: lookups and helpers as in [demo_tower], but the
    schedule resource cannot be reached. *)
Definition down_tower : Tower := {|
  interpreter := Python3;
  remote := nat;
  obj_truth := λ _, true;
  obj_str := λ _, "{}";
  yaml_dump := λ _, "{}";
  resource_get := λ kind field name r,
    (if bool_decide (name = VStr "git project")
     then inr {["id" := VInt 7]}
     else inl (mk_exn NotFound "The requested object could not be found."),
     S r);
  schedule_modify := λ params r,
    (inl (mk_exn ConnectionError "There was a network error of some kind."), S r);
  schedule_delete := λ params r,
    (inl (mk_exn ConnectionError "There was a network error of some kind."), S r);
  tower_auth_config := λ d, inr d;
  tower_check_mode := λ r, (None, r);
|}.

(** A third test double: the module runs in check mode, and
    [tower_check_mode] ends the run. *)
Definition check_tower : Tower := {|
  interpreter := Python3;
  remote := nat;
  obj_truth := λ _, true;
  obj_str := λ _, "{}";
  yaml_dump := λ _, "{}";
  resource_get := λ kind field name r, (inr {["id" := VInt 7]}, S r);
  schedule_modify := λ params r,
    (inr (<["changed" := VBool true]> {["id" := VInt 42]}), S r);
  schedule_delete := λ params r, (inr {["changed" := VBool true]}, S r);
  tower_auth_config := λ d, inr d;
  tower_check_mode := λ r, (Some "check mode", r);
|}.

(** [module.params] once [main] has popped its own keys, on the heap of a
    world of the test double. *)
Definition demo_heap (project : value) : @world demo_tower :=
  @mk_world demo_tower
    [popped (demo_params (VStr "present") project (VStr "2018-01-01T00:00:00Z"))]
    demo_remote [].

(** * Proofs *)

Section Proofs.
Context `{T : Tower}.

(** ** Running the heap program *)

Lemma snoc_lookup (H : list dict) (x : dict) : (H ++ [x]) !! length H = Some x.
Proof. by rewrite list_lookup_middle. Qed.

Lemma snoc_insert (H : list dict) (x y : dict) : <[length H := y]> (H ++ [x]) = H ++ [y].
Proof.
  rewrite insert_app_r_alt by lia. by rewrite Nat.sub_diag.
Qed.

Lemma run_bind {A B} (m : M A) (f : A → M B) (w : world) :
  bind m f w = match m w with
               | (Ret a, w') => f a w'
               | (Exit r, w') => (Exit r, w')
               | (Halt why, w') => (Halt why, w')
               | (Raise e, w') => (Raise e, w')
               end.
Proof. reflexivity. Qed.

Lemma run_read H x r t : read (length H) (mk_world (H ++ [x]) r t) = (Ret x, mk_world (H ++ [x]) r t).
Proof. unfold read; cbn [heap]. by rewrite snoc_lookup. Qed.

Lemma run_dict_copy (h : list dict) p d r t :
  h !! p = Some d →
  dict_copy p (mk_world h r t) = (Ret (length h), mk_world (h ++ [d]) r t).
Proof. intros Hp. unfold dict_copy, bind, read; cbn [heap]. by rewrite Hp. Qed.

Lemma run_dict_get H x r t k :
  dict_get (length H) k (mk_world (H ++ [x]) r t)
  = (Ret (default VNone (x !! k)), mk_world (H ++ [x]) r t).
Proof. unfold dict_get. by rewrite run_bind, run_read. Qed.

Lemma run_dict_getitem H x r t k :
  dict_getitem (length H) k (mk_world (H ++ [x]) r t)
  = match x !! k with
    | Some v => (Ret v, mk_world (H ++ [x]) r t)
    | None => (Raise (key_error k), mk_world (H ++ [x]) r t)
    end.
Proof.
  unfold dict_getitem. rewrite run_bind, run_read. unfold getitem.
  by destruct (x !! k).
Qed.

Lemma run_write H x y r t :
  write (length H) y (mk_world (H ++ [x]) r t) = (Ret tt, mk_world (H ++ [y]) r t).
Proof. unfold write, set_heap; cbn [heap remote_st trace]. by rewrite snoc_insert. Qed.

Lemma run_dict_pop H x r t k :
  dict_pop (length H) k (mk_world (H ++ [x]) r t)
  = match x !! k with
    | Some v => (Ret v, mk_world (H ++ [delete k x]) r t)
    | None => (Raise (key_error k), mk_world (H ++ [x]) r t)
    end.
Proof.
  unfold dict_pop. rewrite run_bind, run_read. unfold getitem.
  destruct (x !! k); [|done].
  rewrite run_bind. unfold lift at 1, ret at 1. by rewrite run_bind, run_write.
Qed.

Lemma run_dict_setitem H x r t k v :
  dict_setitem (length H) k v (mk_world (H ++ [x]) r t)
  = (Ret tt, mk_world (H ++ [<[k := v]> x]) r t).
Proof. unfold dict_setitem. by rewrite run_bind, run_read, run_write. Qed.

Lemma run_dict_delitem H x r t k :
  dict_delitem (length H) k (mk_world (H ++ [x]) r t)
  = match x !! k with
    | Some v => (Ret tt, mk_world (H ++ [delete k x]) r t)
    | None => (Raise (key_error k), mk_world (H ++ [x]) r t)
    end.
Proof.
  unfold dict_delitem. rewrite run_bind, run_read. unfold getitem.
  destruct (x !! k); [|done].
  rewrite run_bind. unfold lift at 1, ret at 1. by rewrite run_write.
Qed.

Lemma run_dict_contains H x r t k :
  dict_contains (length H) k (mk_world (H ++ [x]) r t)
  = (Ret (bool_decide (is_Some (x !! k))), mk_world (H ++ [x]) r t).
Proof. unfold dict_contains. by rewrite run_bind, run_read. Qed.

Lemma run_dict_update H x r t u :
  dict_update (length H) u (mk_world (H ++ [x]) r t)
  = (Ret tt, mk_world (H ++ [u ∪ x]) r t).
Proof. unfold dict_update. by rewrite run_bind, run_read, run_write. Qed.

(** ** The loop of [update_resources] *)

Lemma run_resolve H x r t kv :
  resolve (length H) kv (mk_world (H ++ [x]) r t)
  = let '(o, x', r', evs) := resolve_item kv x r in
    (o, mk_world (H ++ [x']) r' (t ++ evs)).
Proof.
  destruct kv as [k v]. unfold resolve, resolve_item, try_except.
  rewrite run_bind, run_dict_getitem.
  destruct (x !! k) as [name|] eqn:Hk; [|by rewrite app_nil_r].
  destruct (truthy name).
  - rewrite run_bind. unfold get_resource_get at 1; cbn [remote_st].
    destruct (resource_get k v name r) as [[e|result] r']; unfold log; cbn [heap trace].
    + destruct (is_not_found (class_of e)); reflexivity.
    + rewrite run_bind. unfold lift at 1, getitem at 1.
      destruct (result !! "id") as [id|]; [|reflexivity].
      unfold ret at 1. by rewrite run_dict_setitem.
  - rewrite run_bind, run_dict_contains, Hk.
    rewrite bool_decide_true by eauto.
    by rewrite run_dict_delitem, Hk, app_nil_r.
Qed.

Lemma run_for_each_resolve l : ∀ H x r t,
  for_each l (resolve (length H)) (mk_world (H ++ [x]) r t)
  = let '(o, x', r', evs) := resolve_all l x r in
    (o, mk_world (H ++ [x']) r' (t ++ evs)).
Proof.
  induction l as [|kv l IH]; intros H x r t; cbn [for_each resolve_all].
  - unfold ret. by rewrite app_nil_r.
  - rewrite run_bind, run_resolve.
    destruct (resolve_item kv x r) as [[[[[]| | |] x'] r'] evs]; try reflexivity.
    rewrite IH. destruct (resolve_all l x' r') as [[[o x''] r''] evs'].
    by rewrite app_assoc.
Qed.

Lemma run_update_resources (h : list dict) p d r t :
  h !! p = Some d →
  update_resources p (mk_world h r t)
  = let '(o, x, r', evs) := resolve_all identity_map d r in
    (match o with
     | Ret _ => Ret (length h)
     | Exit rep => Exit rep
     | Halt why => Halt why
     | Raise e => Raise e
     end, mk_world (h ++ [x]) r' (t ++ evs)).
Proof.
  intros Hp. unfold update_resources.
  rewrite run_bind, (run_dict_copy _ _ _ _ _ Hp), run_bind, run_for_each_resolve.
  by destruct (resolve_all identity_map d r) as [[[[[]| | |] x] r'] evs].
Qed.

(** One turn of the loop: what it logs, by the way it ends. *)
Lemma resolve_item_spec kv x r o x' r' evs :
  resolve_item kv x r = (o, x', r', evs) →
  match o with
  | Ret _ => Forall (λ e, resolved e = true) evs
  | Exit rep =>
      ∃ k f n e, evs = [ELookup k f n (inl e)] ∧ class_of e = NotFound ∧
        rep = FailJson ("Failed to update schedule: " +:+ message e) false
  | Halt _ => False
  | Raise e =>
      (evs = [] ∧ x' = x ∧ x !! kv.1 = None) ∨
      (∃ ev, evs = [ev] ∧ is_lookup ev = true ∧ resolved ev = false
             ∧ raised_not_found ev = false)
  end.
Proof.
  destruct kv as [k v]. unfold resolve_item.
  destruct (x !! k) as [name|] eqn:Hk.
  - destruct (truthy name).
    + destruct (resource_get k v name r) as [[e|result] r0].
      * destruct (is_not_found (class_of e)) eqn:Hnf; intros [= <- <- <- <-].
        -- exists k, v, name, e. by destruct (class_of e).
        -- right. eexists; split; [done|]. cbn. by destruct (class_of e).
      * destruct (result !! "id") as [id|] eqn:Hid; intros [= <- <- <- <-].
        -- repeat constructor. cbn. rewrite Hid. by apply bool_decide_eq_true_2.
        -- right. eexists; split; [done|]. cbn. rewrite Hid.
           split; [done|]. split; [|done].
           apply bool_decide_eq_false_2. by intros [? ?].
    + intros [= <- <- <- <-]. constructor.
  - intros [= <- <- <- <-]. by left.
Qed.

Lemma resolve_item_lookups kv x r o x' r' evs :
  resolve_item kv x r = (o, x', r', evs) → Forall (λ e, is_lookup e = true) evs.
Proof.
  destruct kv as [k v]. unfold resolve_item.
  destruct (x !! k) as [name|]; [|intros [= <- <- <- <-]; constructor].
  destruct (truthy name); [|intros [= <- <- <- <-]; constructor].
  destruct (resource_get k v name r) as [[e|result] r0].
  - intros [= <- <- <- <-]. by repeat constructor.
  - destruct (result !! "id"); intros [= <- <- <- <-]; by repeat constructor.
Qed.

Lemma resolve_all_lookups l : ∀ x r o x' r' evs,
  resolve_all l x r = (o, x', r', evs) → Forall (λ e, is_lookup e = true) evs.
Proof.
  induction l as [|kv l IH]; intros x r o x' r' evs; cbn [resolve_all].
  - intros [= <- <- <- <-]. constructor.
  - destruct (resolve_item kv x r) as [[[o1 x1] r1] evs1] eqn:H1.
    pose proof (resolve_item_lookups _ _ _ _ _ _ _ H1) as Hl1.
    destruct o1 as [[]| | |]; try (intros [= <- <- <- <-]; exact Hl1).
    destruct (resolve_all l x1 r1) as [[[o2 x2] r2] evs2] eqn:H2.
    intros [= <- <- <- <-]. apply Forall_app. split; [done|]. by eapply IH.
Qed.

(** The whole loop: every lookup but the last came back with an identifier,
    and the last one decides how the loop ends. *)
Lemma resolve_all_spec l : ∀ x r o x' r' evs,
  resolve_all l x r = (o, x', r', evs) →
  match o with
  | Ret _ => Forall (λ e, resolved e = true) evs
  | Exit rep =>
      ∃ evs0 k f n e, evs = evs0 ++ [ELookup k f n (inl e)] ∧
        Forall (λ e, resolved e = true) evs0 ∧ class_of e = NotFound ∧
        rep = FailJson ("Failed to update schedule: " +:+ message e) false
  | Halt _ => False
  | Raise e => Forall (λ e, raised_not_found e = false) evs
  end.
Proof.
  induction l as [|kv l IH]; intros x r o x' r' evs; cbn [resolve_all].
  - intros [= <- <- <- <-]. constructor.
  - destruct (resolve_item kv x r) as [[[o1 x1] r1] evs1] eqn:H1.
    pose proof (resolve_item_spec _ _ _ _ _ _ _ H1) as S1.
    destruct o1 as [[]|rep1|why1|e1].
    + destruct (resolve_all l x1 r1) as [[[o2 x2] r2] evs2] eqn:H2.
      intros [= <- <- <- <-]. specialize (IH _ _ _ _ _ _ H2).
      destruct o2 as [[]|rep2|why2|e2].
      * by apply Forall_app.
      * destruct IH as (evs0 & k & f & n & e & -> & Hres & Hc & ->).
        exists (evs1 ++ evs0), k, f, n, e. rewrite app_assoc.
        split; [done|]. split; [by apply Forall_app|done].
      * done.
      * apply Forall_app. split; [|done].
        eapply Forall_impl; [exact S1|]. intros [k f n [x0|res]| |]; cbn; done.
    + intros [= <- <- <- <-].
      destruct S1 as (k & f & n & e & -> & Hc & ->).
      exists [], k, f, n, e. by repeat split.
    + done.
    + intros [= <- <- <- <-].
      destruct S1 as [(-> & _)|(ev & -> & _ & _ & Hnf)]; by repeat constructor.
Qed.

(** A lookup that raised [NotFound] ends the loop with the failure report
    that carries its message. *)
Lemma resolve_all_not_found l x r o x' r' evs kind field name e :
  resolve_all l x r = (o, x', r', evs) →
  ELookup kind field name (inl e) ∈ evs →
  class_of e = NotFound →
  o = Exit (FailJson ("Failed to update schedule: " +:+ message e) false).
Proof.
  intros Hrun Hin Hc. apply resolve_all_spec in Hrun.
  assert (raised_not_found (ELookup kind field name (inl e)) = true) as Hnf
    by (cbn; by rewrite Hc).
  destruct o as [[]|rep|why|e0].
  - rewrite Forall_forall in Hrun. apply Hrun in Hin. done.
  - destruct Hrun as (evs0 & k & f & n & e1 & -> & Hres & _ & ->).
    apply elem_of_app in Hin as [Hin|Hin].
    + rewrite Forall_forall in Hres. apply Hres in Hin. done.
    + apply list_elem_of_singleton in Hin. by simplify_eq.
  - done.
  - rewrite Forall_forall in Hrun. apply Hrun in Hin. congruence.
Qed.

Lemma lookups_no_modify evs p res :
  Forall (λ e, is_lookup e = true) evs → EModify p res ∉ evs.
Proof. rewrite Forall_forall. intros Hall Hin. by apply Hall in Hin. Qed.

Lemma lookups_no_delete evs p res :
  Forall (λ e, is_lookup e = true) evs → EDelete p res ∉ evs.
Proof. rewrite Forall_forall. intros Hall Hin. by apply Hall in Hin. Qed.

(** A turn of the loop touches no key but its own. *)
Lemma resolve_item_frame k v x r o x' r' evs k' :
  resolve_item (k, v) x r = (o, x', r', evs) → k' ≠ k → x' !! k' = x !! k'.
Proof.
  unfold resolve_item. intros Hrun Hne.
  destruct (x !! k) as [name|]; [|by simplify_eq].
  destruct (truthy name); [|simplify_eq; by rewrite lookup_delete_ne].
  destruct (resource_get k v name r) as [[e|result] r0]; [by simplify_eq|].
  destruct (result !! "id"); simplify_eq; [by rewrite lookup_insert_ne|done].
Qed.


Lemma run_update_fields (h : list dict) p d r t :
  h !! p = Some d →
  update_fields p (mk_world h r t)
  = (Ret (length h), mk_world (h ++ [updated_fields d]) r t).
Proof.
  intros Hp. unfold update_fields.
  rewrite run_bind, (run_dict_copy _ _ _ _ _ Hp).
  cbn [field_map fold_each]. rewrite run_bind. unfold ret at 1.
  rewrite run_bind, run_dict_get, run_bind, run_dict_update.
  reflexivity.
Qed.

Lemma run_call_modify H x r t :
  call_modify (length H) (mk_world (H ++ [x]) r t)
  = let '(res, r') := schedule_modify x r in
    (match res with inl e => Raise e | inr d => Ret d end,
     mk_world (H ++ [x]) r' (t ++ [EModify x res])).
Proof.
  unfold call_modify. rewrite run_bind, run_read. cbn [remote_st].
  by destruct (schedule_modify x r) as [[e|d] r'].
Qed.

Lemma run_call_delete H x r t :
  call_delete (length H) (mk_world (H ++ [x]) r t)
  = let '(res, r') := schedule_delete x r in
    (match res with inl e => Raise e | inr d => Ret d end,
     mk_world (H ++ [x]) r' (t ++ [EDelete x res])).
Proof.
  unfold call_delete. rewrite run_bind, run_read. cbn [remote_st].
  by destruct (schedule_delete x r) as [[e|d] r'].
Qed.

Lemma run_dispatch state json_output H x r t :
  dispatch state (length H) json_output (mk_world (H ++ [x]) r t)
  = if py_eq_str state "absent" then
      let '(res, r') := schedule_delete x r in
      (dispatched state json_output res, mk_world (H ++ [x]) r' (t ++ [EDelete x res]))
    else
      let '(res, r') := schedule_modify x r in
      (dispatched state json_output res, mk_world (H ++ [x]) r' (t ++ [EModify x res])).
Proof.
  unfold dispatch, try_except, dispatched.
  destruct (py_eq_str state "absent").
  - rewrite run_bind, run_call_delete.
    destruct (schedule_delete x r) as [[e|d] r']; [|done].
    by destruct (is_request_error (class_of e)).
  - rewrite run_bind, run_call_modify.
    destruct (schedule_modify x r) as [[e|d] r'].
    + by destruct (is_request_error (class_of e)).
    + rewrite run_bind. unfold lift, getitem.
      by destruct (d !! "id").
Qed.

Lemma run_module_unfold d r :
  run_module d r = main (length ([] : list dict)) (mk_world ([] ++ [d]) r []).
Proof. reflexivity. Qed.

(** Symbolic execution of [main]: [step] runs the statement at the head of
    the program and splits on what it can do; a goal where the run has ended
    is left alone. *)
Ltac split_option :=
  match goal with
  | |- context [match ?o with Some _ => _ | None => _ end] => destruct o eqn:?
  end.

Ltac step :=
  rewrite run_bind;
  first
    [ rewrite run_dict_get
    | rewrite run_dict_pop; split_option
    | rewrite run_dict_setitem
    | unfold auth_config at 1; rewrite run_bind, run_read;
      match goal with
      | |- context [tower_auth_config ?d] =>
          destruct (tower_auth_config d) eqn:?; [|rewrite run_write]
      end
    | unfold check_mode at 1; cbn [remote_st heap trace];
      match goal with
      | |- context [tower_check_mode ?r] =>
          destruct (tower_check_mode r) as [[?|] ?] eqn:?
      end
    | rewrite (run_update_resources _ _ _ _ _ (snoc_lookup _ _));
      match goal with
      | |- context [resolve_all identity_map ?d ?r] =>
          destruct (resolve_all identity_map d r) as [[[[[]| | |] ?] ?] ?] eqn:?
      end
    | rewrite (run_update_fields _ _ _ _ _ (snoc_lookup _ _))
    | unfold parse_datetime_string at 1;
      match goal with
      | |- context [match ?v with VNone => _ | _ => _ end] => destruct v
      end;
      try match goal with
      | |- context [strptime ?s ?f] => destruct (strptime s f) eqn:?
      end;
      try match goal with
      | |- context [strftime ?py ?t ?f] => destruct (strftime py t f) eqn:?
      end
    | match goal with
      | |- context [lift (build_rrule ?a ?b ?c)] =>
          destruct (build_rrule a b c) eqn:?; unfold lift at 1
      end
    | rewrite run_dispatch;
      match goal with
      | |- context [py_eq_str ?s "absent"] => destruct (py_eq_str s "absent") eqn:?
      end;
      match goal with
      | |- context [schedule_delete ?x ?r] => destruct (schedule_delete x r) as [? ?] eqn:?
      | |- context [schedule_modify ?x ?r] => destruct (schedule_modify x r) as [? ?] eqn:?
      end;
      match goal with
      | |- context [dispatched ?s ?o ?res] =>
          destruct (dispatched s o res) as [[? ?]| | |] eqn:?
      end
    | match goal with
      | |- context [lift (getitem ?d ?k)] =>
          unfold lift at 1, getitem at 1; destruct (d !! k) eqn:?
      end ];
  unfold ret, fail_json, raise, exit_json; cbv beta iota.

Ltac exec_main d r :=
  let o := fresh "o" in
  let w := fresh "w" in
  let Hrun := fresh "Hrun" in
  destruct (run_module d r) as [o w] eqn:Hrun; revert Hrun;
  rewrite (run_module_unfold d r); unfold main; repeat step;
  intros Hrun; injection Hrun as <- <-; cbn [fst snd trace].

Lemma dispatched_exit state json_output res rep :
  dispatched state json_output res = Exit rep →
  ∃ e, res = inl e ∧ is_request_error (class_of e) = true ∧
       rep = FailJson ("Failed to update schedule: " +:+ message e) false.
Proof.
  unfold dispatched. destruct res as [e|result].
  - destruct (is_request_error (class_of e)) eqn:He; [|done].
    intros [= <-]. by exists e.
  - destruct (py_eq_str state "absent"); [done|]. by destruct (result !! "id").
Qed.


(** The facts about the lookups of a run, taken from the equation that
    symbolic execution leaves in the context. *)
Ltac lookup_facts :=
  match goal with
  | H : resolve_all _ _ _ = _ |- _ =>
      pose proof (resolve_all_lookups _ _ _ _ _ _ _ H) as Hlookups;
      pose proof (resolve_all_spec _ _ _ _ _ _ _ H) as Hspec; cbv beta iota in Hspec
  end.

(** C9. Whatever way a run fails (the timestamp does not parse, a name
    lookup raises [NotFound], the remote call raises a connection,
    bad-request or not-found error), the failure report carries
    [changed=False]: no run reports a failure together with [changed=True]. *)
Theorem failure_report_unchanged d r msg changed :
  (run_module d r).1 = Exit (FailJson msg changed) → changed = false.
Proof.
  exec_main d r; intros Hout; try discriminate.
  all: repeat match goal with
       | H : resolve_all _ _ _ = (Exit _, _, _, _) |- _ =>
           apply resolve_all_spec in H; destruct H as (? & ? & ? & ? & ? & ? & ? & ? & ?)
       | H : dispatched _ _ _ = Exit _ |- _ =>
           apply dispatched_exit in H; destruct H as (? & ? & ? & ?)
       end.
  all: by simplify_eq.
Qed.

(** C6. When the name lookup of a target field (job_template, project or
    inventory_source) raises [NotFound], the run ends with the fatal report
    that carries the collaborator's message, and the remote calls of the run
    are name lookups only: no create, modify or delete call on the schedule
    resource is made. *)
Theorem lookup_not_found_is_fatal d r kind field name e :
  ELookup kind field name (inl e) ∈ trace (run_module d r).2 →
  class_of e = NotFound →
  (run_module d r).1 = Exit (FailJson ("Failed to update schedule: " +:+ message e) false)
  ∧ Forall (λ ev, is_lookup ev = true) (trace (run_module d r).2).
Proof.
  exec_main d r; rewrite ?app_nil_l; intros Hin Hc.
  all: try by apply elem_of_nil in Hin.
  all: try (apply elem_of_app in Hin as [Hin|Hin];
            [|by apply list_elem_of_singleton in Hin]).
  all: lookup_facts.
  all: match goal with
       | H : resolve_all _ _ _ = _ |- _ =>
           pose proof (resolve_all_not_found _ _ _ _ _ _ _ _ _ _ _ H Hin Hc)
       end.
  all: by simplify_eq.
Qed.

(** C7. The [enabled] argument of every call on the schedule resource is
    [state != 'disabled']: false exactly when the state is disabled, true for
    present and absent, whatever the other parameters are. *)
Theorem enabled_flag d r state p res :
  d !! "state" = Some (VStr state) →
  EModify p res ∈ trace (run_module d r).2 ∨ EDelete p res ∈ trace (run_module d r).2 →
  p !! "enabled" = Some (VBool (bool_decide (state ≠ "disabled"))).
Proof.
  intros Hstate. exec_main d r; rewrite ?app_nil_l; intros Hin.
  all: try (destruct Hin as [Hin|Hin]; by apply elem_of_nil in Hin).
  all: lookup_facts.
  all: try (destruct Hin as [Hin|Hin];
            [by apply lookups_no_modify in Hin|by apply lookups_no_delete in Hin]).
  all: assert (p !! "enabled" = Some (VBool (negb (py_eq_str (VStr state) "disabled"))))
         as ->; [|cbn; by repeat case_bool_decide].
  all: destruct Hin as [Hin|Hin]; apply elem_of_app in Hin as [Hin|Hin];
       try (by apply lookups_no_modify in Hin);
       try (by apply lookups_no_delete in Hin);
       apply list_elem_of_singleton in Hin; simplify_eq.
  all: by rewrite lookup_insert_ne, lookup_insert_eq.
Qed.


Lemma identity_map_keys : NoDup identity_map.*1.
Proof. apply (bool_decide_unpack _). by vm_compute. Qed.






Lemma string_app_assoc (a b c : string) : (a +:+ b) +:+ c = a +:+ b +:+ c.
Proof.
  induction a as [|x a IH]; [done|].
  change (String x ((a +:+ b) +:+ c) = String x (a +:+ b +:+ c)). by rewrite IH.
Qed.

Lemma unit_map_lookup :
  unit_map !! "minute" = Some "MINUTELY" ∧ unit_map !! "hour" = Some "HOURLY"
  ∧ unit_map !! "day" = Some "DAILY" ∧ unit_map !! "runonce" = Some "DAILY".
Proof. by vm_compute. Qed.

(** C1. For the unit runonce (the once of the specification) and every
    anchor and interval count, [build_rrule] returns the anchor, the DAILY
    rule and the interval with the text COUNT=1 right after it, nothing in
    between; with interval 1 the rule ends in INTERVAL=1COUNT=1. *)
Theorem build_rrule_runonce (a : string) (n : Z) :
  build_rrule a (VInt n) (VStr "runonce")
  = inr ("DTSTART:" +:+ a +:+ " RRULE:FREQ=DAILY;INTERVAL=" +:+ pretty n +:+ "COUNT=1")
  ∧ build_rrule a (VInt 1) (VStr "runonce")
    = inr ("DTSTART:" +:+ a +:+ " RRULE:FREQ=DAILY;INTERVAL=1COUNT=1").
Proof.
  destruct unit_map_lookup as (_ & _ & _ & Hu).
  unfold build_rrule. cbn [unit_map_getitem py_eq_str py_str].
  rewrite Hu, bool_decide_true by done.
  split; f_equal.
  - by rewrite !string_app_assoc.
  - by rewrite !string_app_assoc.
Qed.

(** C5. For the units minute, hour and day and every anchor and interval
    count (positive or not), [build_rrule] returns the anchor, the rule with
    FREQ MINUTELY, HOURLY or DAILY, and the interval, with no COUNT after
    it; 30 minutes from 20180101T000000Z give
    DTSTART:20180101T000000Z RRULE:FREQ=MINUTELY;INTERVAL=30. *)
Theorem build_rrule_repeating (a : string) (n : Z) :
  build_rrule a (VInt n) (VStr "minute")
  = inr ("DTSTART:" +:+ a +:+ " RRULE:FREQ=MINUTELY;INTERVAL=" +:+ pretty n)
  ∧ build_rrule a (VInt n) (VStr "hour")
    = inr ("DTSTART:" +:+ a +:+ " RRULE:FREQ=HOURLY;INTERVAL=" +:+ pretty n)
  ∧ build_rrule a (VInt n) (VStr "day")
    = inr ("DTSTART:" +:+ a +:+ " RRULE:FREQ=DAILY;INTERVAL=" +:+ pretty n)
  ∧ build_rrule "20180101T000000Z" (VInt 30) (VStr "minute")
    = inr "DTSTART:20180101T000000Z RRULE:FREQ=MINUTELY;INTERVAL=30".
Proof.
  destruct unit_map_lookup as (Hm & Hh & Hd & _).
  unfold build_rrule. cbn [unit_map_getitem py_eq_str py_str].
  rewrite Hm, Hh, Hd, !bool_decide_false by done.
  repeat split; f_equal.
Qed.

Lemma updated_fields_other d k : k ≠ "extra_data" → updated_fields d !! k = d !! k.
Proof.
  intros Hk. unfold updated_fields.
  destruct (is_not_none _); rewrite lookup_union.
  - by rewrite lookup_insert_ne, lookup_empty, (left_id_L None (∪)).
  - by rewrite lookup_empty, (left_id_L None (∪)).
Qed.

Lemma updated_fields_extra_data d :
  match d !! "extra_data" with
  | None | Some VNone => updated_fields d = d
  | Some v => updated_fields d !! "extra_data" = Some (VStr (yaml_dump v))
  end.
Proof.
  unfold updated_fields.
  destruct (d !! "extra_data") as [v|] eqn:Hv; cbn [from_option id].
  - destruct v; cbn [from_option id is_not_none];
      try (rewrite lookup_union, lookup_insert_eq; by destruct (d !! "extra_data")).
    by rewrite (left_id_L ∅ (∪)).
  - cbn [is_not_none]. by rewrite (left_id_L ∅ (∪)).
Qed.

(** C10. [update_fields(p)] returns a new dictionary and leaves every
    object that was on the heap, [p] among them, as it was. The new
    dictionary agrees with [p] on every key but extra_data; extra_data is
    replaced by its YAML text when it is there and not [None], otherwise the
    new dictionary equals [p]. No remote call is made. *)
Theorem update_fields_frame (w : world) (p : loc) (d : dict) :
  heap w !! p = Some d →
  ∃ q d' w',
    update_fields p w = (Ret q, w')
    ∧ heap w !! q = None
    ∧ heap w' !! q = Some d'
    ∧ (∀ l x, heap w !! l = Some x → heap w' !! l = Some x)
    ∧ heap w' !! p = Some d
    ∧ (∀ k, k ≠ "extra_data" → d' !! k = d !! k)
    ∧ match d !! "extra_data" with
      | None | Some VNone => d' = d
      | Some v => d' !! "extra_data" = Some (VStr (yaml_dump v))
      end
    ∧ remote_st w' = remote_st w ∧ trace w' = trace w.
Proof.
  intros Hp. destruct w as [h r t]; cbn [heap] in Hp.
  exists (length h), (updated_fields d), (mk_world (h ++ [updated_fields d]) r t).
  cbn [heap remote_st trace].
  split; [by apply run_update_fields|].
  split; [by apply lookup_ge_None_2|].
  split; [by apply snoc_lookup|].
  split; [intros l x Hl; by apply lookup_app_l_Some|].
  split; [by apply lookup_app_l_Some|].
  split; [intros k; apply updated_fields_other|].
  split; [apply updated_fields_extra_data|done].
Qed.

(** ** Digits, by enumeration *)

Lemma is_digit_In c : is_digit c = true → In c digit_chars.
Proof.
  destruct c as [[] [] [] [] [] [] [] []]; vm_compute; intros H;
    first [discriminate H | tauto].
Qed.

Lemma forall_digits1 (P : ascii → bool) :
  forallb P digit_chars = true → ∀ a, is_digit a = true → P a = true.
Proof.
  intros HP a Ha. rewrite forallb_forall in HP. by apply HP, is_digit_In.
Qed.

Lemma forall_digits2 (P : ascii → ascii → bool) :
  forallb (λ a, forallb (P a) digit_chars) digit_chars = true →
  ∀ a b, is_digit a = true → is_digit b = true → P a b = true.
Proof.
  intros HP a b Ha Hb. apply forall_digits1; [|done].
  by apply (forall_digits1 (λ a, forallb (P a) digit_chars)).
Qed.

Lemma forall_digits4 (P : ascii → ascii → ascii → ascii → bool) :
  forallb (λ a, forallb (λ b, forallb (λ c, forallb (P a b c) digit_chars)
                                digit_chars) digit_chars) digit_chars = true →
  ∀ a b c d, is_digit a = true → is_digit b = true → is_digit c = true →
             is_digit d = true → P a b c d = true.
Proof.
  intros HP a b c d Ha Hb Hc Hd. apply forall_digits2; [|done..].
  by apply (forall_digits2
              (λ a b, forallb (λ c, forallb (P a b c) digit_chars) digit_chars)).
Qed.

Lemma digit_not_space a : is_digit a = true → Ascii.eqb a " " = false.
Proof.
  intros Ha. apply negb_true_iff.
  by apply (forall_digits1 (λ a, negb (Ascii.eqb a " "))).
Qed.

Lemma digit_not_separator a : is_digit a = true → is_separator a = false.
Proof.
  intros Ha. apply negb_true_iff.
  by apply (forall_digits1 (λ a, negb (is_separator a))).
Qed.

(** On digits, [int] reads what [decimal] reads. *)
Lemma int_digits_decimal s : ∀ acc,
  forallb is_digit (list_ascii_of_string s) = true →
  int_digits acc s = Some (decimal acc s).
Proof.
  induction s as [|c s IH]; intros acc Hs; [done|].
  cbn in Hs. apply andb_prop in Hs as [Hc Hs].
  cbn [int_digits decimal]. rewrite Hc. by apply IH.
Qed.

Lemma py_int_two a b :
  is_digit a = true → is_digit b = true →
  py_int (String a (String b "")) = Some (num2 a b).
Proof.
  intros Ha Hb. cbn [py_int]. rewrite (digit_not_space a Ha).
  apply int_digits_decimal. cbn. by rewrite Ha, Hb.
Qed.

Lemma py_int_four a b c d :
  is_digit a = true → is_digit b = true → is_digit c = true → is_digit d = true →
  py_int (String a (String b (String c (String d "")))) = Some (num4 a b c d).
Proof.
  intros Ha Hb Hc Hd. cbn [py_int]. rewrite (digit_not_space a Ha).
  apply int_digits_decimal. cbn. by rewrite Ha, Hb, Hc, Hd.
Qed.

Lemma num2_bounds a b : is_digit a = true → is_digit b = true → 0 ≤ num2 a b < 100.
Proof.
  intros Ha Hb.
  pose proof (forall_digits2 (λ a b, (0 <=? num2 a b) && (num2 a b <? 100))
                ltac:(by vm_compute) a b Ha Hb) as H.
  apply andb_prop in H as [?%Z.leb_le ?%Z.ltb_lt]. lia.
Qed.

Lemma pad2_num2 a b :
  is_digit a = true → is_digit b = true → pad2 (num2 a b) = String a (String b "").
Proof.
  intros Ha Hb.
  pose proof (forall_digits2
                (λ a b, bool_decide (pad2 (num2 a b) = String a (String b "")))
                ltac:(by vm_compute) a b Ha Hb) as H.
  by apply bool_decide_eq_true_1 in H.
Qed.

Lemma pad4_split x y :
  0 ≤ x < 100 → 0 ≤ y < 100 → pad4 (100 * x + y) = pad2 x +:+ pad2 y.
Proof.
  intros Hx Hy. unfold pad4, pad2.
  replace ((100 * x + y) / 1000 mod 10) with (x / 10 mod 10)
    by (Z.div_mod_to_equations; lia).
  replace ((100 * x + y) / 100 mod 10) with (x mod 10)
    by (Z.div_mod_to_equations; lia).
  replace ((100 * x + y) / 10 mod 10) with (y / 10 mod 10)
    by (Z.div_mod_to_equations; lia).
  replace ((100 * x + y) mod 10) with (y mod 10)
    by (Z.div_mod_to_equations; lia).
  reflexivity.
Qed.

Lemma num4_split a b c d : num4 a b c d = 100 * num2 a b + num2 c d.
Proof. unfold num4, num2. cbn [decimal]. lia. Qed.

Lemma pad4_num4 a b c d :
  is_digit a = true → is_digit b = true → is_digit c = true → is_digit d = true →
  pad4 (num4 a b c d) = String a (String b (String c (String d ""))).
Proof.
  intros Ha Hb Hc Hd.
  rewrite num4_split, pad4_split by by apply num2_bounds.
  by rewrite !pad2_num2.
Qed.

(** ** The regular expression on a well-formed timestamp *)

Lemma regex_group_two d alts a b ts rest gs r :
  first_two alts a b = true →
  regex_match ts rest = Some (gs, r) →
  regex_match (TGroup d alts :: ts) (String a (String b rest))
  = Some ((d, String a (String b "")) :: gs, r).
Proof.
  intros Halts Hrest. cbn [regex_match].
  induction alts as [|ks alts IH]; [done|].
  destruct ks as [|k1 [|k2 [|k3 ks]]]; try done; cbn [first_two] in Halts.
  - apply andb_prop in Halts as [Hk1 Halts]. apply negb_true_iff in Hk1.
    cbn [first_some match_seq]. rewrite Hk1. by apply IH.
  - cbn [first_some match_seq].
    destruct (in_class k1 a); [destruct (in_class k2 b)|]; cbn [andb] in Halts.
    + by rewrite Hrest.
    + by apply IH.
    + by apply IH.
Qed.

Lemma regex_group_four d a b c e ts rest gs r :
  is_digit a = true → is_digit b = true → is_digit c = true → is_digit e = true →
  regex_match ts rest = Some (gs, r) →
  regex_match (TGroup d [[Digit; Digit; Digit; Digit]] :: ts)
    (String a (String b (String c (String e rest))))
  = Some ((d, String a (String b (String c (String e "")))) :: gs, r).
Proof.
  intros Ha Hb Hc He Hrest.
  cbn [regex_match first_some match_seq in_class]. by rewrite Ha, Hb, Hc, He, Hrest.
Qed.

Lemma regex_lit_group_two c c' d alts a b ts rest gs r :
  eq_nocase c c' = true →
  first_two alts a b = true →
  regex_match ts rest = Some (gs, r) →
  regex_match (TLit c :: TGroup d alts :: ts) (String c' (String a (String b rest)))
  = Some ((d, String a (String b "")) :: gs, r).
Proof.
  intros Hc Halts Hrest. cbn [regex_match]. rewrite Hc.
  by apply (regex_group_two d).
Qed.

Lemma directive_two d lo hi :
  forallb (λ a, forallb (in_directive d lo hi a) digit_chars) digit_chars = true →
  ∀ a b, is_digit a = true → is_digit b = true → lo ≤ num2 a b ≤ hi →
         first_two (alts_of d) a b = true.
Proof.
  intros Hall a b Ha Hb [Hlo Hhi].
  pose proof (forall_digits2 _ Hall a b Ha Hb) as H. unfold in_directive in H.
  apply Z.leb_le in Hlo, Hhi. by rewrite Hlo, Hhi in H.
Qed.

Lemma days_in_month_le y m : days_in_month y m ≤ 31.
Proof. unfold days_in_month. repeat case_match; lia. Qed.

Lemma fields_set y m d h mi s :
  set_field "S" s (set_field "M" mi (set_field "H" h (set_field "d" d
    (set_field "m" m (set_field "Y" y default_fields)))))
  = mk_datetime y m d h mi s.
Proof. reflexivity. Qed.

Lemma check_date_ok y m d :
  1 ≤ y ≤ 9999 → 1 ≤ m ≤ 12 → 1 ≤ d ≤ days_in_month y m → check_date y m d = None.
Proof.
  intros Hy Hm Hd. unfold check_date.
  repeat match goal with
         | |- context [?a <? ?b] => destruct (Z.ltb_spec a b); [lia|]
         end.
  reflexivity.
Qed.

Lemma check_time_ok h mi s :
  0 ≤ h ≤ 23 → 0 ≤ mi ≤ 59 → 0 ≤ s ≤ 59 → check_time h mi s = None.
Proof.
  intros Hh Hmi Hs. unfold check_time.
  repeat match goal with
         | |- context [?a <? ?b] => destruct (Z.ltb_spec a b); [lia|]
         end.
  reflexivity.
Qed.

Lemma time_strftime_compact y m d h mi s :
  time_strftime (mk_datetime y m d h mi s) "%Y%m%dT%H%M%SZ"
  = pretty y +:+ pad2 m +:+ pad2 d +:+ "T" +:+ pad2 h +:+ pad2 mi +:+ pad2 s +:+ "Z".
Proof. reflexivity. Qed.

(** A year of four digits is written as [pad4] writes it. *)
Lemma pretty_pad4 y : 1000 ≤ y ≤ 9999 → pretty y = pad4 y.
Proof.
  intros Hy.
  assert (forallb (λ n, String.eqb (pretty (1000 + Z.of_nat n)) (pad4 (1000 + Z.of_nat n)))
            (seq 0 (90 * 100)) = true) as Hall by (vm_compute; reflexivity).
  rewrite forallb_forall in Hall.
  specialize (Hall (Z.to_nat (y - 1000))).
  rewrite Z2Nat.id in Hall by lia.
  replace (1000 + (y - 1000)) with y in Hall by lia.
  apply String.eqb_eq, Hall, in_seq. lia.
Qed.

(** What [strftime] returns, by interpreter. *)
Lemma strftime_from t format :
  match interpreter with Python2 => 1900 | Python3 => 1000 end ≤ year t →
  strftime interpreter t format = inr (time_strftime t format).
Proof.
  unfold strftime. destruct interpreter; [|done].
  intros Hy. by destruct (Z.ltb_spec (year t) 1900); [lia|].
Qed.

Lemma compact_sep c s : is_separator c = true → compact (String c s) = compact s.
Proof. intros H. cbn [compact]. by rewrite H. Qed.

Lemma compact_keep c s :
  is_separator c = false → compact (String c s) = String c (compact s).
Proof. intros H. cbn [compact]. by rewrite H. Qed.

Lemma pattern_iso :
  pattern "%Y-%m-%dT%H:%M:%SZ"
  = inr [TGroup "Y" (alts_of "Y"); TLit "-"; TGroup "m" (alts_of "m"); TLit "-";
         TGroup "d" (alts_of "d"); TLit "T"; TGroup "H" (alts_of "H"); TLit ":";
         TGroup "M" (alts_of "M"); TLit ":"; TGroup "S" (alts_of "S"); TLit "Z"].
Proof. reflexivity. Qed.

(** [strptime] on a string of the fixed pattern whose fields are in range. *)
Lemma strptime_fixed y1 y2 y3 y4 m1 m2 d1 d2 h1 h2 mi1 mi2 s1 s2 :
  is_digit y1 = true → is_digit y2 = true → is_digit y3 = true → is_digit y4 = true →
  is_digit m1 = true → is_digit m2 = true → is_digit d1 = true → is_digit d2 = true →
  is_digit h1 = true → is_digit h2 = true → is_digit mi1 = true → is_digit mi2 = true →
  is_digit s1 = true → is_digit s2 = true →
  1 ≤ num4 y1 y2 y3 y4 →
  1 ≤ num2 m1 m2 ≤ 12 →
  1 ≤ num2 d1 d2 ≤ days_in_month (num4 y1 y2 y3 y4) (num2 m1 m2) →
  num2 h1 h2 ≤ 23 → num2 mi1 mi2 ≤ 59 → num2 s1 s2 ≤ 59 →
  strptime
    (String y1 (String y2 (String y3 (String y4 (String "-"
    (String m1 (String m2 (String "-" (String d1 (String d2 (String "T"
    (String h1 (String h2 (String ":" (String mi1 (String mi2 (String ":"
    (String s1 (String s2 (String "Z" ""))))))))))))))))))))
    "%Y-%m-%dT%H:%M:%SZ"
  = inr (mk_datetime (num4 y1 y2 y3 y4) (num2 m1 m2) (num2 d1 d2)
                     (num2 h1 h2) (num2 mi1 mi2) (num2 s1 s2)).
Proof.
  intros Hy1 Hy2 Hy3 Hy4 Hm1 Hm2 Hd1 Hd2 Hh1 Hh2 Hmi1 Hmi2 Hs1 Hs2 Hy Hm Hd Hh Hmi Hs.
  pose proof (num2_bounds h1 h2 Hh1 Hh2). pose proof (num2_bounds mi1 mi2 Hmi1 Hmi2).
  pose proof (num2_bounds s1 s2 Hs1 Hs2).
  pose proof (days_in_month_le (num4 y1 y2 y3 y4) (num2 m1 m2)).
  pose proof (num2_bounds y1 y2 Hy1 Hy2). pose proof (num2_bounds y3 y4 Hy3 Hy4).
  pose proof (num4_split y1 y2 y3 y4).
  unfold strptime. rewrite pattern_iso.
  rewrite (regex_group_four _ _ _ _ _ _ _
             [("m"%char, String m1 (String m2 "")); ("d"%char, String d1 (String d2 ""));
              ("H"%char, String h1 (String h2 "")); ("M"%char, String mi1 (String mi2 ""));
              ("S"%char, String s1 (String s2 ""))] "" Hy1 Hy2 Hy3 Hy4).
  2:{ apply regex_lit_group_two; [done|apply (directive_two "m" 1 12); by try vm_compute|].
      apply regex_lit_group_two;
        [done|apply (directive_two "d" 1 31); [by vm_compute|done..|lia]|].
      apply regex_lit_group_two;
        [done|apply (directive_two "H" 0 23); [by vm_compute|done..|lia]|].
      apply regex_lit_group_two;
        [done|apply (directive_two "M" 0 59); [by vm_compute|done..|lia]|].
      apply regex_lit_group_two;
        [done|apply (directive_two "S" 0 59); [by vm_compute|done..|lia]|].
      reflexivity. }
  cbn [convert_groups].
  rewrite py_int_four, !py_int_two by done.
  cbn [convert_groups]. rewrite fields_set. cbn [year month day hour minute second].
  rewrite check_date_ok, check_time_ok by lia. reflexivity.
Qed.

(** What a string of the fixed pattern is made of. *)
Lemma matches_fixed_pattern_inv s :
  matches_fixed_pattern s = true →
  ∃ y1 y2 y3 y4 m1 m2 d1 d2 h1 h2 mi1 mi2 s1 s2,
    s = String y1 (String y2 (String y3 (String y4 (String "-"
        (String m1 (String m2 (String "-" (String d1 (String d2 (String "T"
        (String h1 (String h2 (String ":" (String mi1 (String mi2 (String ":"
        (String s1 (String s2 (String "Z" "")))))))))))))))))))
    ∧ Forall (λ c, is_digit c = true)
        [y1; y2; y3; y4; m1; m2; d1; d2; h1; h2; mi1; mi2; s1; s2].
Proof.
  unfold matches_fixed_pattern, fixed_pattern. intros H.
  do 20 (destruct s as [|? s];
         [cbn [has_shape] in H; rewrite ?andb_false_r in H; discriminate H|]).
  destruct s; [|cbn [has_shape] in H; rewrite ?andb_false_r in H; discriminate H].
  cbn [has_shape] in H.
  repeat match type of H with
         | (_ && _) = true => let H1 := fresh "H" in apply andb_prop in H as [H1 H]
         end.
  repeat match goal with
         | E : Ascii.eqb _ _ = true |- _ => apply Ascii.eqb_eq in E; subst
         end.
  do 14 eexists. split; [reflexivity|]. by repeat constructor.
Qed.

(** X18. For every string of the fixed pattern YYYY-MM-DDTHH:MM:SSZ whose
    fields denote a date of the calendar and a time of the day, and whose
    year is 1900 or later (under Python 3: 1000 or later),
    [parse_datetime_string] returns, without ending the run, the same
    timestamp in the compact form YYYYMMDDTHHMMSSZ; it maps
    2018-01-01T00:00:00Z to 20180101T000000Z. *)
Theorem parse_datetime_string_compact (s : string) (w : world) :
  matches_fixed_pattern s = true →
  valid_calendar s = true →
  match interpreter with Python2 => 1900 | Python3 => 1000 end ≤ number_at 0 4 s →
  parse_datetime_string (VStr s) w = (Ret (compact s), w)
  ∧ parse_datetime_string (VStr "2018-01-01T00:00:00Z") w = (Ret "20180101T000000Z", w).
Proof.
  intros Hpat Hvalid Hyear. split.
  2:{ unfold parse_datetime_string, strftime. by destruct interpreter. }
  apply matches_fixed_pattern_inv in Hpat
    as (y1 & y2 & y3 & y4 & m1 & m2 & d1 & d2 & h1 & h2 & mi1 & mi2 & s1 & s2 & -> & Hd).
  repeat match goal with
         | H : Forall _ (_ :: _) |- _ => apply Forall_cons in H as [? H]
         end.
  unfold valid_calendar, number_at in Hvalid. cbn [substring] in Hvalid.
  unfold number_at in Hyear. cbn [substring] in Hyear.
  fold (num4 y1 y2 y3 y4) in Hyear.
  repeat match type of Hvalid with
         | (_ && _) = true => let H1 := fresh "H" in apply andb_prop in Hvalid as [Hvalid H1]
         end.
  repeat match goal with
         | E : (_ <=? _) = true |- _ => apply Z.leb_le in E
         end.
  assert (num4 y1 y2 y3 y4 ≤ 9999) as Hmax.
  { rewrite num4_split.
    pose proof (num2_bounds y1 y2 ltac:(done) ltac:(done)).
    pose proof (num2_bounds y3 y4 ltac:(done) ltac:(done)). lia. }
  unfold parse_datetime_string.
  rewrite strptime_fixed by (done || (split; done)).
  rewrite strftime_from by done.
  rewrite time_strftime_compact, pretty_pad4, pad4_num4, !pad2_num2
    by (done || (destruct interpreter; lia)).
  repeat first [ rewrite compact_sep by reflexivity
               | rewrite compact_keep by (reflexivity || by apply digit_not_separator) ].
  reflexivity.
Qed.

(** C3. The claim fails for the years before 1000. The timestamp
    0001-01-01T00:00:00Z is of the fixed pattern and denotes a date of the
    calendar, and its compact form is 00010101T000000Z; under Python 3
    [parse_datetime_string] returns 10101T000000Z, the year without its
    leading zeros, and under Python 2, where [strftime] refuses a year before
    1900, it ends the run with [fail_json]. *)
Theorem parse_datetime_string_early_year (w : world) :
  matches_fixed_pattern "0001-01-01T00:00:00Z" = true
  ∧ valid_calendar "0001-01-01T00:00:00Z" = true
  ∧ compact "0001-01-01T00:00:00Z" = "00010101T000000Z"
  ∧ parse_datetime_string (VStr "0001-01-01T00:00:00Z") w
    = match interpreter with
      | Python3 => (Ret "10101T000000Z", w)
      | Python2 =>
          (Exit (FailJson
                   ("Failed to update schedule, unable to parse datetime "
                    +:+ "0001-01-01T00:00:00Z" +:+ ": "
                    +:+ "year=1 is before 1900; "
                    +:+ "the datetime strftime() methods require year >= 1900")
                   false), w)
      end.
Proof.
  repeat split; try reflexivity.
  unfold parse_datetime_string, strftime. by destruct interpreter.
Qed.

Lemma string_app_nil_r (a : string) : a +:+ "" = a.
Proof.
  induction a as [|x a IH]; [done|].
  change (String x (a +:+ "") = String x a). by rewrite IH.
Qed.

(** When [strptime] raises, the run ends with a report that holds the input
    and the text of the exception. *)
Lemma parse_datetime_string_failure s excinfo w :
  strptime s "%Y-%m-%dT%H:%M:%SZ" = inl excinfo →
  ∃ msg, parse_datetime_string (VStr s) w = (Exit (FailJson msg false), w)
         ∧ contains msg s ∧ contains msg excinfo.
Proof.
  intros Hparse. unfold parse_datetime_string. rewrite Hparse.
  eexists. split; [reflexivity|]. split.
  - by exists "Failed to update schedule, unable to parse datetime ", (": " +:+ excinfo).
  - exists ("Failed to update schedule, unable to parse datetime " +:+ s +:+ ": "), "".
    by rewrite !string_app_assoc, string_app_nil_r.
Qed.

(** The three malformed inputs the specification names are refused. *)
Lemma parse_datetime_string_refuses w :
  (∃ msg, parse_datetime_string (VStr "2018-01-01T00:00:00") w
          = (Exit (FailJson msg false), w))
  ∧ (∃ msg, parse_datetime_string (VStr "2018/01/01T00:00:00Z") w
            = (Exit (FailJson msg false), w))
  ∧ (∃ msg, parse_datetime_string (VStr "2018-13-01T00:00:00Z") w
            = (Exit (FailJson msg false), w)).
Proof. repeat split; eexists; reflexivity. Qed.

(** C4. [strptime] takes fields without their leading zero and letters in
    either case, so [parse_datetime_string] returns a result for inputs that
    are not of the fixed pattern: 2018-1-1T0:0:0Z and 2018-01-01t00:00:00z
    both come back as 20180101T000000Z instead of failing. *)
Theorem parse_datetime_string_lenient (w : world) :
  matches_fixed_pattern "2018-1-1T0:0:0Z" = false
  ∧ parse_datetime_string (VStr "2018-1-1T0:0:0Z") w = (Ret "20180101T000000Z", w)
  ∧ matches_fixed_pattern "2018-01-01t00:00:00z" = false
  ∧ parse_datetime_string (VStr "2018-01-01t00:00:00z") w = (Ret "20180101T000000Z", w).
Proof.
  repeat split; try reflexivity.
  all: unfold parse_datetime_string, strftime; by destruct interpreter.
Qed.

(** * Further properties of the code *)

(** ** The regular expression on the fixed pattern, exactly *)

Lemma regex_group_two_exact d alts c a b ts rest :
  short_alts alts = true →
  eq_nocase c b = false →
  regex_match (TGroup d alts :: TLit c :: ts) (String a (String b rest))
  = if two_of alts a b
    then match regex_match (TLit c :: ts) rest with
         | Some (gs, r) => Some ((d, String a (String b "")) :: gs, r)
         | None => None
         end
    else None.
Proof.
  intros Hshort Hc.
  change (regex_match (TGroup d alts :: TLit c :: ts) (String a (String b rest)))
    with (first_some
            (λ ks, match match_seq ks (String a (String b rest)) with
                   | None => None
                   | Some (m, rest0) =>
                       match regex_match (TLit c :: ts) rest0 with
                       | None => None
                       | Some (gs, r) => Some ((d, m) :: gs, r)
                       end
                   end) alts).
  induction alts as [|ks alts IH]; [done|].
  cbn [short_alts forallb] in Hshort. apply andb_prop in Hshort as [Hks Hshort].
  specialize (IH Hshort). cbn [first_some two_of existsb]. fold (two_of alts a b).
  destruct ks as [|k1 [|k2 [|k3 ks]]]; try done.
  - cbn [match_seq]. destruct (in_class k1 a).
    + cbn [regex_match]. rewrite Hc. exact IH.
    + exact IH.
  - cbn [match_seq]. destruct (in_class k1 a); [|exact IH].
    destruct (in_class k2 b); [|exact IH]. cbn [andb orb].
    destruct (regex_match (TLit c :: ts) rest) as [[gs r]|]; [done|].
    rewrite IH. by destruct (two_of alts a b).
Qed.

Lemma regex_group_four_exact d a b c e ts rest :
  is_digit a = true → is_digit b = true → is_digit c = true → is_digit e = true →
  regex_match (TGroup d [[Digit; Digit; Digit; Digit]] :: ts)
    (String a (String b (String c (String e rest))))
  = match regex_match ts rest with
    | Some (gs, r) => Some ((d, String a (String b (String c (String e "")))) :: gs, r)
    | None => None
    end.
Proof.
  intros Ha Hb Hc He.
  cbn [regex_match first_some match_seq in_class]. rewrite Ha, Hb, Hc, He.
  by destruct (regex_match ts rest) as [[gs r]|].
Qed.

Lemma regex_lit_same c ts rest :
  eq_nocase c c = true →
  regex_match (TLit c :: ts) (String c rest) = regex_match ts rest.
Proof. intros Hc. cbn [regex_match]. by rewrite Hc. Qed.

Lemma digit_not_literal c b :
  forallb (λ b, negb (eq_nocase c b)) digit_chars = true →
  is_digit b = true → eq_nocase c b = false.
Proof.
  intros Hall Hb. apply negb_true_iff.
  by apply (forall_digits1 (λ b, negb (eq_nocase c b))).
Qed.

(** The regular expression on a string that starts like the fixed
    pattern: it matches when the five fields are in their languages, and
    then leaves what follows the Z. *)
Lemma regex_match_fixed y1 y2 y3 y4 m1 m2 d1 d2 h1 h2 mi1 mi2 s1 s2 rest :
  Forall (λ c, is_digit c = true)
    [y1; y2; y3; y4; m1; m2; d1; d2; h1; h2; mi1; mi2; s1; s2] →
  regex_match
    [TGroup "Y" (alts_of "Y"); TLit "-"; TGroup "m" (alts_of "m"); TLit "-";
     TGroup "d" (alts_of "d"); TLit "T"; TGroup "H" (alts_of "H"); TLit ":";
     TGroup "M" (alts_of "M"); TLit ":"; TGroup "S" (alts_of "S"); TLit "Z"]
    (String y1 (String y2 (String y3 (String y4 (String "-"
    (String m1 (String m2 (String "-" (String d1 (String d2 (String "T"
    (String h1 (String h2 (String ":" (String mi1 (String mi2 (String ":"
    (String s1 (String s2 (String "Z" rest))))))))))))))))))))
  = if fields_in_language m1 m2 d1 d2 h1 h2 mi1 mi2 s1 s2
    then Some ([("Y"%char, String y1 (String y2 (String y3 (String y4 ""))));
                ("m"%char, String m1 (String m2 "")); ("d"%char, String d1 (String d2 ""));
                ("H"%char, String h1 (String h2 "")); ("M"%char, String mi1 (String mi2 ""));
                ("S"%char, String s1 (String s2 ""))], rest)
    else None.
Proof.
  intros Hd.
  repeat match goal with
         | H : Forall _ (_ :: _) |- _ => apply Forall_cons in H as [? H]
         end.
  unfold fields_in_language.
  change (alts_of "Y") with [[Digit; Digit; Digit; Digit]].
  rewrite regex_group_four_exact by done.
  rewrite (regex_lit_same "-") by done.
  rewrite (regex_group_two_exact "m") by (done || by apply digit_not_literal).
  rewrite (regex_lit_same "-") by done.
  rewrite (regex_group_two_exact "d") by (done || by apply digit_not_literal).
  rewrite (regex_lit_same "T") by done.
  rewrite (regex_group_two_exact "H") by (done || by apply digit_not_literal).
  rewrite (regex_lit_same ":") by done.
  rewrite (regex_group_two_exact "M") by (done || by apply digit_not_literal).
  rewrite (regex_lit_same ":") by done.
  rewrite (regex_group_two_exact "S") by (done || by apply digit_not_literal).
  rewrite (regex_lit_same "Z") by done.
  cbn [regex_match].
  destruct (two_of (alts_of "m") m1 m2), (two_of (alts_of "d") d1 d2),
    (two_of (alts_of "H") h1 h2), (two_of (alts_of "M") mi1 mi2),
    (two_of (alts_of "S") s1 s2); reflexivity.
Qed.

Lemma strptime_fixed_exact y1 y2 y3 y4 m1 m2 d1 d2 h1 h2 mi1 mi2 s1 s2 rest :
  Forall (λ c, is_digit c = true)
    [y1; y2; y3; y4; m1; m2; d1; d2; h1; h2; mi1; mi2; s1; s2] →
  strptime
    (String y1 (String y2 (String y3 (String y4 (String "-"
    (String m1 (String m2 (String "-" (String d1 (String d2 (String "T"
    (String h1 (String h2 (String ":" (String mi1 (String mi2 (String ":"
    (String s1 (String s2 (String "Z" rest))))))))))))))))))))
    "%Y-%m-%dT%H:%M:%SZ"
  = if fields_in_language m1 m2 d1 d2 h1 h2 mi1 mi2 s1 s2 then
      match rest with
      | String c r => inl ("unconverted data remains: " +:+ String c r)
      | EmptyString =>
          match check_date (num4 y1 y2 y3 y4) (num2 m1 m2) (num2 d1 d2) with
          | Some msg => inl msg
          | None =>
              match check_time (num2 h1 h2) (num2 mi1 mi2) (num2 s1 s2) with
              | Some msg => inl msg
              | None => inr (mk_datetime (num4 y1 y2 y3 y4) (num2 m1 m2) (num2 d1 d2)
                               (num2 h1 h2) (num2 mi1 mi2) (num2 s1 s2))
              end
          end
      end
    else inl ("time data "
              +:+ py_repr
                    (String y1 (String y2 (String y3 (String y4 (String "-"
                    (String m1 (String m2 (String "-" (String d1 (String d2 (String "T"
                    (String h1 (String h2 (String ":" (String mi1 (String mi2 (String ":"
                    (String s1 (String s2 (String "Z" rest))))))))))))))))))))
              +:+ " does not match format " +:+ py_repr "%Y-%m-%dT%H:%M:%SZ").
Proof.
  intros Hd. unfold strptime. rewrite pattern_iso, (regex_match_fixed _ _ _ _ _ _ _ _ _ _ _ _ _ _ _ Hd).
  destruct (fields_in_language m1 m2 d1 d2 h1 h2 mi1 mi2 s1 s2); [|reflexivity].
  destruct rest as [|c r]; [|reflexivity].
  repeat match goal with
         | H : Forall _ (_ :: _) |- _ => apply Forall_cons in H as [? H]
         end.
  cbn [convert_groups]. rewrite py_int_four, !py_int_two by done.
  cbn [convert_groups]. rewrite fields_set. reflexivity.
Qed.

Lemma checks_valid y m d h mi s :
  check_date y m d = None → check_time h mi s = None →
  (1 <=? y) && (1 <=? m) && (m <=? 12) && (1 <=? d) && (d <=? days_in_month y m)
  && (h <=? 23) && (mi <=? 59) && (s <=? 59) = true.
Proof.
  unfold check_date, check_time.
  repeat match goal with
         | |- context [?a <? ?b] => destruct (Z.ltb_spec a b); cbn [orb]; try done
         end.
  intros _ _.
  repeat (apply andb_true_intro; split); apply Z.leb_le; lia.
Qed.

(** What [fail_json] on a parse failure says. *)
Lemma strptime_refused_report s excinfo w :
  strptime s "%Y-%m-%dT%H:%M:%SZ" = inl excinfo →
  ∃ msg, parse_datetime_string (VStr s) w = (Exit (FailJson msg false), w)
         ∧ contains msg s.
Proof.
  intros Hparse. destruct (parse_datetime_string_failure s excinfo w Hparse)
    as (msg & Hrun & Hs & _). eauto.
Qed.

(** X1. A start timestamp that has the shape YYYY-MM-DDTHH:MM:SSZ but
    names no date of the calendar or no time of the day (month 13, 30
    February, hour 24, year 0000) is refused: [parse_datetime_string] ends
    with [fail_json], [changed=False], a message that holds the input, and
    leaves the world as it was. *)
Theorem parse_datetime_string_rejects_invalid (s : string) (w : world) :
  matches_fixed_pattern s = true →
  valid_calendar s = false →
  ∃ msg, parse_datetime_string (VStr s) w = (Exit (FailJson msg false), w)
         ∧ contains msg s.
Proof.
  intros Hpat Hvalid.
  apply matches_fixed_pattern_inv in Hpat
    as (y1 & y2 & y3 & y4 & m1 & m2 & d1 & d2 & h1 & h2 & mi1 & mi2 & s1 & s2 & -> & Hd).
  pose proof (strptime_fixed_exact _ _ _ _ _ _ _ _ _ _ _ _ _ _ "" Hd) as Hparse.
  unfold valid_calendar, number_at in Hvalid. cbn [substring] in Hvalid.
  fold (num4 y1 y2 y3 y4) (num2 m1 m2) (num2 d1 d2) (num2 h1 h2) (num2 mi1 mi2)
    (num2 s1 s2) in Hvalid.
  destruct (fields_in_language m1 m2 d1 d2 h1 h2 mi1 mi2 s1 s2);
    [|by eapply strptime_refused_report].
  destruct (check_date (num4 y1 y2 y3 y4) (num2 m1 m2) (num2 d1 d2)) as [msg|] eqn:Hdate;
    [by eapply strptime_refused_report|].
  destruct (check_time (num2 h1 h2) (num2 mi1 mi2) (num2 s1 s2)) as [msg|] eqn:Htime;
    [by eapply strptime_refused_report|].
  pose proof (checks_valid _ _ _ _ _ _ Hdate Htime). congruence.
Qed.

(** X3. Text after the final Z is refused: a well-formed timestamp with
    anything appended makes [parse_datetime_string] end with [fail_json],
    [changed=False] and a message that holds the whole input. *)
Theorem parse_datetime_string_trailing (s suffix : string) (w : world) :
  matches_fixed_pattern s = true →
  suffix ≠ "" →
  ∃ msg, parse_datetime_string (VStr (s +:+ suffix)) w = (Exit (FailJson msg false), w)
         ∧ contains msg (s +:+ suffix).
Proof.
  intros Hpat Hsuffix.
  apply matches_fixed_pattern_inv in Hpat
    as (y1 & y2 & y3 & y4 & m1 & m2 & d1 & d2 & h1 & h2 & mi1 & mi2 & s1 & s2 & -> & Hd).
  pose proof (strptime_fixed_exact _ _ _ _ _ _ _ _ _ _ _ _ _ _ suffix Hd) as Hparse.
  destruct (fields_in_language m1 m2 d1 d2 h1 h2 mi1 mi2 s1 s2);
    [|by eapply strptime_refused_report].
  destruct suffix as [|c r]; [done|].
  by eapply strptime_refused_report.
Qed.

Lemma strptime_checked s f t :
  strptime s f = inr t →
  check_date (year t) (month t) (day t) = None
  ∧ check_time (hour t) (minute t) (second t) = None.
Proof.
  unfold strptime. repeat case_match; try done. by intros [= <-].
Qed.

Lemma small_cases k : 0 ≤ k ≤ 9 →
  k = 0 ∨ k = 1 ∨ k = 2 ∨ k = 3 ∨ k = 4 ∨ k = 5 ∨ k = 6 ∨ k = 7 ∨ k = 8 ∨ k = 9.
Proof. lia. Qed.

Lemma char_of_digit_is_digit k : 0 ≤ k ≤ 9 → is_digit (char_of_digit k) = true.
Proof. intros Hk. destruct (small_cases k Hk) as [->|[->|[->|[->|[->|[->|[->|[->|[->| ->]]]]]]]]]; reflexivity. Qed.

Lemma digit_of_char_of_digit k : 0 ≤ k ≤ 9 → digit_of_char (char_of_digit k) = k.
Proof. intros Hk. destruct (small_cases k Hk) as [->|[->|[->|[->|[->|[->|[->|[->|[->| ->]]]]]]]]]; reflexivity. Qed.

Lemma mod10_bounds x : 0 ≤ x mod 10 ≤ 9.
Proof. pose proof (Z.mod_pos_bound x 10). lia. Qed.

Lemma decimal_pad2 n : 0 ≤ n < 100 → decimal 0 (pad2 n) = n.
Proof.
  intros Hn. unfold pad2. cbn [decimal].
  rewrite !digit_of_char_of_digit by apply mod10_bounds.
  Z.div_mod_to_equations. lia.
Qed.

Lemma decimal_pad4 n : 0 ≤ n < 10000 → decimal 0 (pad4 n) = n.
Proof.
  intros Hn. unfold pad4, pad2. cbn [decimal].
  rewrite !digit_of_char_of_digit by apply mod10_bounds.
  Z.div_mod_to_equations. lia.
Qed.

Lemma check_date_bounds y m d :
  check_date y m d = None → 1 ≤ y ≤ 9999 ∧ 1 ≤ m ≤ 12 ∧ 1 ≤ d ≤ 31.
Proof.
  unfold check_date. pose proof (days_in_month_le y m).
  repeat match goal with
         | |- context [?a <? ?b] => destruct (Z.ltb_spec a b); cbn [orb]; try done
         end.
  all: lia.
Qed.

Lemma check_time_bounds h mi s :
  check_time h mi s = None → 0 ≤ h ≤ 23 ∧ 0 ≤ mi ≤ 59 ∧ 0 ≤ s ≤ 59.
Proof.
  unfold check_time.
  repeat match goal with
         | |- context [?a <? ?b] => destruct (Z.ltb_spec a b); cbn [orb]; try done
         end.
  all: lia.
Qed.

(** The compact form of a date and time, every field padded. *)
Lemma padded_chars y m d h mi s :
  pad4 y +:+ pad2 m +:+ pad2 d +:+ "T" +:+ pad2 h +:+ pad2 mi +:+ pad2 s +:+ "Z"
  = String (char_of_digit (y / 1000 mod 10)) (String (char_of_digit (y / 100 mod 10))
    (String (char_of_digit (y / 10 mod 10)) (String (char_of_digit (y mod 10))
    (String (char_of_digit (m / 10 mod 10)) (String (char_of_digit (m mod 10))
    (String (char_of_digit (d / 10 mod 10)) (String (char_of_digit (d mod 10))
    (String "T"
    (String (char_of_digit (h / 10 mod 10)) (String (char_of_digit (h mod 10))
    (String (char_of_digit (mi / 10 mod 10)) (String (char_of_digit (mi mod 10))
    (String (char_of_digit (s / 10 mod 10)) (String (char_of_digit (s mod 10))
    "Z")))))))))))))).
Proof. reflexivity. Qed.

(** What [strftime] returns, when it returns. *)
Lemma strftime_returns t format r :
  strftime interpreter t format = inr r →
  r = time_strftime t format ∧ (interpreter = Python2 → 1900 ≤ year t).
Proof.
  unfold strftime. destruct interpreter.
  - destruct (Z.ltb_spec (year t) 1900); [done|]. by intros [= <-].
  - by intros [= <-].
Qed.

(** X2. Whatever [parse_datetime_string] returns, for any argument, is the
    compact form YYYYMMDDTHHMMSSZ of a date of the calendar and a time of
    the day with the leading zeros of the year left out: the year in
    decimal, then the twelve characters MMDDTHHMMSSZ. From the year 1000 on
    it is the compact form itself, and under Python 2 the year is 1900 or
    later. The call leaves the world as it was (no remote call, no object
    changed). *)
Theorem parse_datetime_string_result (v : value) (w w' : world) (r : string) :
  parse_datetime_string v w = (Ret r, w') →
  w' = w
  ∧ ∃ c, has_shape compact_pattern c = true
         ∧ valid_compact c = true
         ∧ r = pretty (number_at 0 4 c) +:+ substring 4 12 c
         ∧ (1000 ≤ number_at 0 4 c → r = c)
         ∧ (interpreter = Python2 → 1900 ≤ number_at 0 4 c).
Proof.
  unfold parse_datetime_string. destruct v as [| | |s|]; try done.
  destruct (strptime s "%Y-%m-%dT%H:%M:%SZ") as [excinfo|[y m d h mi se]] eqn:Hparse;
    [done|].
  destruct (strftime interpreter _ _) as [excinfo|text] eqn:Hformat; [done|].
  intros [= <- <-]. split; [done|].
  apply strftime_returns in Hformat as [-> Hpy]. cbn [year] in Hpy.
  apply strptime_checked in Hparse as [Hdate Htime]. cbn in Hdate, Htime.
  pose proof (check_date_bounds _ _ _ Hdate) as (Hy & Hm & Hd).
  pose proof (check_time_bounds _ _ _ Htime) as (Hh & Hmi & Hs).
  exists (pad4 y +:+ pad2 m +:+ pad2 d +:+ "T" +:+ pad2 h +:+ pad2 mi +:+ pad2 se +:+ "Z").
  rewrite padded_chars.
  assert (number_at 0 4
            (String (char_of_digit (y / 1000 mod 10)) (String (char_of_digit (y / 100 mod 10))
            (String (char_of_digit (y / 10 mod 10)) (String (char_of_digit (y mod 10))
            (String (char_of_digit (m / 10 mod 10)) (String (char_of_digit (m mod 10))
            (String (char_of_digit (d / 10 mod 10)) (String (char_of_digit (d mod 10))
            (String "T"
            (String (char_of_digit (h / 10 mod 10)) (String (char_of_digit (h mod 10))
            (String (char_of_digit (mi / 10 mod 10)) (String (char_of_digit (mi mod 10))
            (String (char_of_digit (se / 10 mod 10)) (String (char_of_digit (se mod 10))
            "Z"))))))))))))))) = y) as Hyear.
  { unfold number_at. cbn [substring].
    change (decimal 0 (String (char_of_digit (y / 1000 mod 10)) _)) with (decimal 0 (pad4 y)).
    apply decimal_pad4. lia. }
  rewrite Hyear. split; [|split; [|split; [|split]]].
  - cbn [has_shape compact_pattern].
    rewrite !char_of_digit_is_digit by apply mod10_bounds. reflexivity.
  - unfold valid_compact, number_at. cbn [substring].
    change (decimal 0 (String (char_of_digit (y / 1000 mod 10)) _)) with (decimal 0 (pad4 y)).
    change (decimal 0 (String (char_of_digit (m / 10 mod 10)) _)) with (decimal 0 (pad2 m)).
    change (decimal 0 (String (char_of_digit (d / 10 mod 10)) _)) with (decimal 0 (pad2 d)).
    change (decimal 0 (String (char_of_digit (h / 10 mod 10)) _)) with (decimal 0 (pad2 h)).
    change (decimal 0 (String (char_of_digit (mi / 10 mod 10)) _)) with (decimal 0 (pad2 mi)).
    change (decimal 0 (String (char_of_digit (se / 10 mod 10)) _)) with (decimal 0 (pad2 se)).
    rewrite decimal_pad4, !decimal_pad2 by lia.
    by apply checks_valid.
  - cbn [substring]. reflexivity.
  - intros Hfour. rewrite time_strftime_compact, pretty_pad4 by lia. reflexivity.
  - exact Hpy.
Qed.

(** ** The rule string *)

Lemma unit_map_None u : u ∉ unit_choices → unit_map !! u = None.
Proof.
  intros Hu. unfold unit_map. apply not_elem_of_list_to_map_1. exact Hu.
Qed.

Lemma unit_map_Some u : u ∈ unit_choices → is_Some (unit_map !! u).
Proof.
  intros Hu. destruct unit_map_lookup as (Hm & Hh & Hd & Hr).
  unfold unit_choices in Hu. rewrite !elem_of_cons, elem_of_nil in Hu.
  destruct Hu as [->|[->|[->|[->|[]]]]]; eauto.
Qed.

(** X4. [build_rrule] returns a rule exactly for the unit names minute,
    day, hour and runonce, whatever the anchor and the frequency; for any
    other name it raises [KeyError] with that name. *)
Theorem build_rrule_unit_choices (a : string) (freq : value) (u : string) :
  (u ∈ unit_choices → ∃ rule, build_rrule a freq (VStr u) = inr rule)
  ∧ (u ∉ unit_choices → build_rrule a freq (VStr u) = inl (key_error u)).
Proof.
  unfold build_rrule. cbn [unit_map_getitem]. split; intros Hu.
  - destruct (unit_map_Some u Hu) as [f ->].
    destruct (py_eq_str (VStr u) "runonce"); eauto.
  - by rewrite (unit_map_None u Hu).
Qed.

(** X5. [build_rrule] does not look at the frequency: when it is [None]
    (the parameter has no default) the rule is built all the same and reads
    INTERVAL=None, followed by COUNT=1 for runonce. *)
Theorem build_rrule_without_frequency (a : string) :
  build_rrule a VNone (VStr "runonce")
  = inr ("DTSTART:" +:+ a +:+ " RRULE:FREQ=DAILY;INTERVAL=NoneCOUNT=1")
  ∧ build_rrule a VNone (VStr "minute")
    = inr ("DTSTART:" +:+ a +:+ " RRULE:FREQ=MINUTELY;INTERVAL=None")
  ∧ build_rrule a VNone (VStr "hour")
    = inr ("DTSTART:" +:+ a +:+ " RRULE:FREQ=HOURLY;INTERVAL=None")
  ∧ build_rrule a VNone (VStr "day")
    = inr ("DTSTART:" +:+ a +:+ " RRULE:FREQ=DAILY;INTERVAL=None").
Proof.
  destruct unit_map_lookup as (Hm & Hh & Hd & Hr).
  unfold build_rrule. cbn [unit_map_getitem py_eq_str py_str].
  rewrite Hm, Hh, Hd, Hr, bool_decide_true, !bool_decide_false by done.
  repeat split; f_equal. by rewrite !string_app_assoc.
Qed.

(** ** The lookups of [update_resources] *)

(** The ways one turn of the loop can go. *)
Lemma resolve_item_cases k f x r o x1 r1 evs1 :
  resolve_item (k, f) x r = (o, x1, r1, evs1) →
  (x !! k = None ∧ o = Raise (key_error k) ∧ x1 = x ∧ r1 = r ∧ evs1 = [])
  ∨ (∃ v, x !! k = Some v ∧ truthy v = false
          ∧ o = Ret tt ∧ x1 = delete k x ∧ r1 = r ∧ evs1 = [])
  ∨ (∃ v res, x !! k = Some v ∧ truthy v = true
              ∧ resource_get k f v r = (res, r1) ∧ evs1 = [ELookup k f v res]
              ∧ match res with
                | inl e => x1 = x ∧ o = lookup_failure e
                | inr result =>
                    match result !! "id" with
                    | Some id => o = Ret tt ∧ x1 = <[k := id]> x
                    | None => o = Raise (key_error "id") ∧ x1 = x
                    end
                end).
Proof.
  unfold resolve_item, lookup_failure.
  destruct (x !! k) as [v|]; [|intros [= <- <- <- <-]; by left].
  destruct (truthy v) eqn:Hv; [|intros [= <- <- <- <-]; right; left; by exists v].
  destruct (resource_get k f v r) as [res r0] eqn:Hget.
  intros Hrun. right. right. exists v, res.
  destruct res as [e|result].
  - injection Hrun as <- <- <- <-. done.
  - destruct (result !! "id"); injection Hrun as <- <- <- <-; done.
Qed.

(** Every call of the loop is a lookup by [f] of a truthy value that the
    dictionary held under a key of the loop, and each key is looked up at
    most once. *)
Lemma resolve_all_events l : ∀ x r o x' r' evs,
  NoDup l.*1 →
  resolve_all l x r = (o, x', r', evs) →
  Forall (λ ev, ∃ k f v res, ev = ELookup k f v res ∧ (k, f) ∈ l
                             ∧ x !! k = Some v ∧ truthy v = true) evs
  ∧ (length evs ≤ length l)%nat.
Proof.
  induction l as [|[k f] l IH]; intros x r o x' r' evs Hnd; cbn [resolve_all].
  - intros [= <- <- <- <-]. split; [constructor|done].
  - rewrite fmap_cons in Hnd. apply NoDup_cons in Hnd as [Hk Hnd]. cbn [fst] in Hk.
    destruct (resolve_item (k, f) x r) as [[[o1 x1] r1] evs1] eqn:H1.
    assert (Forall (λ ev, ∃ k0 f0 v res, ev = ELookup k0 f0 v res ∧ (k0, f0) ∈ (k, f) :: l
                                         ∧ x !! k0 = Some v ∧ truthy v = true) evs1
            ∧ (length evs1 ≤ 1)%nat) as [Hevs1 Hlen1].
    { destruct (resolve_item_cases _ _ _ _ _ _ _ _ H1)
        as [(_ & _ & _ & _ & ->)|[(v & _ & _ & _ & _ & _ & ->)
                                 |(v & res & Hv & Ht & _ & -> & _)]].
      - split; [constructor|cbn; lia].
      - split; [constructor|cbn; lia].
      - split; [|done]. repeat constructor. exists k, f, v, res.
        split; [done|]. split; [by left|done]. }
    destruct o1 as [[]|rep1|why1|e1];
      try (intros [= <- <- <- <-]; split; [done|cbn; lia]).
    destruct (resolve_all l x1 r1) as [[[o2 x2] r2] evs2] eqn:H2.
    intros [= <- <- <- <-].
    destruct (IH _ _ _ _ _ _ Hnd H2) as [Hevs2 Hlen2].
    split; [|rewrite length_app; cbn; lia].
    apply Forall_app. split; [done|].
    eapply Forall_impl; [exact Hevs2|].
    intros ev (k0 & f0 & v & res & -> & Hin & Hv & Ht).
    exists k0, f0, v, res. split; [done|]. split; [by right|]. split; [|done].
    rewrite <- Hv. symmetry. eapply resolve_item_frame; [exact H1|].
    intros ->. apply Hk. apply list_elem_of_fmap. by exists (k, f0).
Qed.

(** A loop that completes has left the other keys alone, put the
    identifier of its lookup under every truthy key and removed the
    others. *)
Lemma resolve_all_ret l : ∀ x r x' r' evs,
  NoDup l.*1 →
  resolve_all l x r = (Ret tt, x', r', evs) →
  (∀ k, k ∉ l.*1 → x' !! k = x !! k)
  ∧ (∀ k f, (k, f) ∈ l →
       ∃ v, x !! k = Some v
            ∧ if truthy v
              then ∃ res id, ELookup k f v (inr res) ∈ evs
                             ∧ res !! "id" = Some id ∧ x' !! k = Some id
              else x' !! k = None).
Proof.
  induction l as [|[k f] l IH]; intros x r x' r' evs Hnd; cbn [resolve_all].
  - intros [= <- <- <-]. split; [done|]. intros k f Hin. by apply elem_of_nil in Hin.
  - rewrite fmap_cons in Hnd. apply NoDup_cons in Hnd as [Hk Hnd]. cbn [fst] in Hk.
    destruct (resolve_item (k, f) x r) as [[[o1 x1] r1] evs1] eqn:H1.
    destruct o1 as [[]|rep1|why1|e1]; try done.
    destruct (resolve_all l x1 r1) as [[[o2 x2] r2] evs2] eqn:H2.
    intros [= -> <- <- <-].
    destruct (IH _ _ _ _ _ Hnd H2) as [Hother Hkeys].
    split.
    + intros k0 Hk0. rewrite fmap_cons in Hk0. apply not_elem_of_cons in Hk0 as [Hne Hk0].
      rewrite (Hother k0 Hk0). by eapply resolve_item_frame.
    + intros k0 f0 Hin. apply elem_of_cons in Hin as [[= -> ->]|Hin].
      * rewrite (Hother k Hk).
        destruct (resolve_item_cases _ _ _ _ _ _ _ _ H1)
          as [(_ & ? & _)|[(v & Hv & Ht & _ & -> & _ & _)
                          |(v & res & Hv & Ht & _ & -> & Hres)]]; [done| |].
        -- exists v. split; [done|]. rewrite Ht. apply lookup_delete_eq.
        -- exists v. split; [done|]. rewrite Ht.
           destruct res as [e|result].
           ++ destruct Hres as [_ Ho]. unfold lookup_failure in Ho.
              by destruct (is_not_found (class_of e)).
           ++ destruct (result !! "id") as [id|] eqn:Hid; [|by destruct Hres].
              destruct Hres as [_ ->]. exists result, id.
              split; [by left|]. split; [done|]. apply lookup_insert_eq.
      * destruct (Hkeys k0 f0 Hin) as (v & Hv & Hrest).
        assert (k0 ≠ k) as Hne.
        { intros ->. apply Hk. apply list_elem_of_fmap. by exists (k, f0). }
        exists v. split.
        -- rewrite <- Hv. symmetry. by eapply resolve_item_frame.
        -- destruct (truthy v); [|done].
           destruct Hrest as (res & id & Hev & Hid & Hx).
           exists res, id. split; [|done]. apply elem_of_app. by right.
Qed.

(** A lookup that raised is the end of the loop. *)
Lemma resolve_all_raised l : ∀ x r o x' r' evs k f v e,
  resolve_all l x r = (o, x', r', evs) →
  ELookup k f v (inl e) ∈ evs →
  o = lookup_failure e.
Proof.
  induction l as [|[k0 f0] l IH]; intros x r o x' r' evs k f v e; cbn [resolve_all].
  - intros [= <- <- <- <-] Hin. by apply elem_of_nil in Hin.
  - destruct (resolve_item (k0, f0) x r) as [[[o1 x1] r1] evs1] eqn:H1.
    destruct (resolve_item_cases _ _ _ _ _ _ _ _ H1)
      as [(_ & -> & _ & _ & ->)|[(v0 & _ & _ & -> & _ & _ & ->)
                               |(v0 & res & _ & _ & _ & -> & Hres)]].
    + intros [= <- <- <- <-] Hin. by apply elem_of_nil in Hin.
    + destruct (resolve_all l x1 r1) as [[[o2 x2] r2] evs2] eqn:H2.
      intros [= <- <- <- <-] Hin. by eapply IH.
    + destruct res as [e0|result].
      * destruct Hres as [_ ->]. unfold lookup_failure at 1.
        destruct (is_not_found (class_of e0)) eqn:Hnf; intros [= <- <- <- <-] Hin;
          apply list_elem_of_singleton in Hin; simplify_eq;
          unfold lookup_failure; by rewrite Hnf.
      * destruct (result !! "id") as [id|]; destruct Hres as [-> _].
        -- destruct (resolve_all l x1 r1) as [[[o2 x2] r2] evs2] eqn:H2.
           intros [= <- <- <- <-] Hin. apply elem_of_cons in Hin as [Hin|Hin].
           ++ done.
           ++ by eapply IH.
        -- intros [= <- <- <- <-] Hin. apply list_elem_of_singleton in Hin. done.
Qed.

Lemma identity_map_targets : identity_map.*1 = target_keys.
Proof. reflexivity. Qed.

Lemma identity_map_names k f : (k, f) ∈ identity_map → k ∈ target_keys ∧ f = "name".
Proof.
  unfold identity_map, target_keys. rewrite !elem_of_cons, !elem_of_nil.
  intros [[= -> ->]|[[= -> ->]|[[= -> ->]|[]]]]; split; auto.
Qed.

Lemma target_in_identity_map k : k ∈ target_keys → (k, "name") ∈ identity_map.
Proof.
  unfold identity_map, target_keys. rewrite !elem_of_cons, !elem_of_nil.
  intros [->|[->|[->|[]]]]; auto.
Qed.

(** X6. [update_resources(module, p)] works on a copy: every object that
    was on the heap, [p] among them, is left as it was, however the call
    ends; when it returns, the result is a new dictionary that agrees with
    [p] on every key but job_template, project and inventory_source. *)
Theorem update_resources_frame (w : world) (p : loc) (d : dict) :
  heap w !! p = Some d →
  ∃ o w', update_resources p w = (o, w')
    ∧ (∀ l x, heap w !! l = Some x → heap w' !! l = Some x)
    ∧ (∀ q, o = Ret q →
         heap w !! q = None
         ∧ ∃ d', heap w' !! q = Some d' ∧ ∀ k, k ∉ target_keys → d' !! k = d !! k).
Proof.
  intros Hp. destruct w as [h r t]; cbn [heap] in Hp.
  rewrite (run_update_resources _ _ _ _ _ Hp).
  destruct (resolve_all identity_map d r) as [[[o x] r'] evs] eqn:Hres.
  eexists _, _. split; [reflexivity|]. cbn [heap]. split.
  - intros l y Hl. by apply lookup_app_l_Some.
  - intros q Hq. destruct o as [[]| | |]; try done. injection Hq as <-.
    split; [by apply lookup_ge_None_2|].
    exists x. split; [by apply snoc_lookup|].
    intros k Hk. by apply (resolve_all_ret _ _ _ _ _ _ identity_map_keys Hres).
Qed.

(** X7. When [update_resources] returns, each of job_template, project
    and inventory_source was a key of [p]; a key with a truthy value now
    holds the [id] of the record a lookup by that name returned, and that
    lookup is in the trace; a key with a falsy value (None, the empty
    string) has been removed. *)
Theorem update_resources_targets (w w' : world) (p q : loc) (d : dict) :
  heap w !! p = Some d →
  update_resources p w = (Ret q, w') →
  ∃ d', heap w' !! q = Some d'
    ∧ ∀ k, k ∈ target_keys →
        ∃ v, d !! k = Some v
             ∧ if truthy v
               then ∃ res id, ELookup k "name" v (inr res) ∈ trace w'
                              ∧ res !! "id" = Some id ∧ d' !! k = Some id
               else d' !! k = None.
Proof.
  intros Hp. destruct w as [h r t]; cbn [heap] in Hp.
  rewrite (run_update_resources _ _ _ _ _ Hp).
  destruct (resolve_all identity_map d r) as [[[o x] r'] evs] eqn:Hres.
  destruct o as [[]| | |]; try done. intros [= <- <-].
  exists x. cbn [heap trace]. split; [by apply snoc_lookup|].
  intros k Hk.
  destruct (proj2 (resolve_all_ret _ _ _ _ _ _ identity_map_keys Hres) k "name"
              (target_in_identity_map k Hk)) as (v & Hv & Hrest).
  exists v. split; [done|]. destruct (truthy v); [|done].
  destruct Hrest as (res & id & Hin & Hid & Hx). exists res, id.
  split; [|done]. apply elem_of_app. by right.
Qed.

(** X8. A lookup of [update_resources] that raises ends the function
    there: with [fail_json], the collaborator's message and [changed=False]
    when the exception is [NotFound], and with the exception itself,
    uncaught, when it is of any other class. *)
Theorem update_resources_lookup_raises (w w' : world) (p : loc) (d : dict)
    (o : outcome loc) (evs : list event) k f v e :
  heap w !! p = Some d →
  update_resources p w = (o, w') →
  trace w' = trace w ++ evs →
  ELookup k f v (inl e) ∈ evs →
  o = if is_not_found (class_of e)
      then Exit (FailJson ("Failed to update schedule: " +:+ message e) false)
      else Raise e.
Proof.
  intros Hp. destruct w as [h r t]; cbn [heap] in Hp.
  rewrite (run_update_resources _ _ _ _ _ Hp).
  destruct (resolve_all identity_map d r) as [[[o0 x] r'] evs0] eqn:Hres.
  intros [= <- <-]. cbn [trace]. intros ->%app_inv_head Hin.
  pose proof (resolve_all_raised _ _ _ _ _ _ _ _ _ _ _ Hres Hin) as ->.
  unfold lookup_failure. by destruct (is_not_found (class_of e)).
Qed.

(** X9. The remote calls of [update_resources] are lookups by name only:
    each one looks up, under one of the keys job_template, project and
    inventory_source, the truthy value [p] holds for that key, and there are
    at most three of them. *)
Theorem update_resources_lookups (w w' : world) (p : loc) (d : dict)
    (o : outcome loc) (evs : list event) :
  heap w !! p = Some d →
  update_resources p w = (o, w') →
  trace w' = trace w ++ evs →
  Forall (λ ev, ∃ k v res, ev = ELookup k "name" v res ∧ k ∈ target_keys
                           ∧ d !! k = Some v ∧ truthy v = true) evs
  ∧ (length evs ≤ 3)%nat.
Proof.
  intros Hp. destruct w as [h r t]; cbn [heap] in Hp.
  rewrite (run_update_resources _ _ _ _ _ Hp).
  destruct (resolve_all identity_map d r) as [[[o0 x] r'] evs0] eqn:Hres.
  intros [= <- <-]. cbn [trace]. intros ->%app_inv_head.
  destruct (resolve_all_events _ _ _ _ _ _ _ identity_map_keys Hres) as [Hevs Hlen].
  split; [|exact Hlen].
  eapply Forall_impl; [exact Hevs|].
  intros ev (k & f & v & res & -> & Hin & Hv & Ht).
  destruct (identity_map_names k f Hin) as [Hk ->]. by exists k, v, res.
Qed.

(** ** The call on the schedule resource *)

Lemma lookups_no_call evs p res e :
  Forall (λ e, is_lookup e = true) evs → schedule_call p res e → e ∉ evs.
Proof.
  rewrite Forall_forall. intros Hall [-> | ->] Hin; by apply Hall in Hin.
Qed.

Lemma resolve_all_length d r o x r' evs :
  resolve_all identity_map d r = (o, x, r', evs) → (length evs ≤ 3)%nat.
Proof.
  intros Hres. by destruct (resolve_all_events _ _ _ _ _ _ _ identity_map_keys Hres).
Qed.

(** X10. The trace of every run is at most three name lookups, followed
    by at most one other call: the run calls the schedule resource at most
    once, and nothing is called after it. *)
Theorem schedule_call_last d r :
  ∃ evs, Forall (λ e, is_lookup e = true) evs ∧ (length evs ≤ 3)%nat
         ∧ (trace (run_module d r).2 = evs
            ∨ ∃ call, trace (run_module d r).2 = evs ++ [call] ∧ is_lookup call = false).
Proof.
  exec_main d r; rewrite ?app_nil_l.
  all: try (exists []; split; [constructor|]; split; [cbn; lia|by left]).
  all: lookup_facts.
  all: match goal with
       | H : resolve_all _ _ _ = (_, _, _, ?l) |- _ =>
           exists l; split; [done|]; split; [by eapply resolve_all_length|]
       end.
  all: first [by left|right; by eexists].
Qed.

(** X11. A call on the schedule resource is made only after the start
    timestamp has been parsed and rendered and the rule has been built: its
    parameters hold [create_on_missing] true and, under [rrule], the rule
    [build_rrule] makes of what [strftime] returned for the start, the
    frequency and the unit. *)
Theorem schedule_call_rrule d r p res call :
  schedule_call p res call →
  call ∈ trace (run_module d r).2 →
  p !! "create_on_missing" = Some (VBool true)
  ∧ ∃ s dt dtstart frequency unit rrule,
      d !! "start" = Some (VStr s)
      ∧ strptime s "%Y-%m-%dT%H:%M:%SZ" = inr dt
      ∧ strftime interpreter dt "%Y%m%dT%H%M%SZ" = inr dtstart
      ∧ d !! "frequency" = Some frequency
      ∧ d !! "frequency_unit" = Some unit
      ∧ build_rrule dtstart frequency unit = inr rrule
      ∧ p !! "rrule" = Some (VStr rrule).
Proof.
  intros Hcall. exec_main d r; rewrite ?app_nil_l; intros Hin.
  all: try by apply elem_of_nil in Hin.
  all: lookup_facts.
  all: try by apply (lookups_no_call _ _ _ _ Hlookups Hcall) in Hin.
  all: apply elem_of_app in Hin as [Hin|Hin];
       [by apply (lookups_no_call _ _ _ _ Hlookups Hcall) in Hin|].
  all: apply list_elem_of_singleton in Hin; subst call.
  all: repeat match goal with
       | H : delete _ _ !! _ = _ |- _ => rewrite lookup_delete_ne in H by done
       end.
  all: destruct Hcall as [[= <- <-]|[= <- <-]].
  all: split; [by rewrite !lookup_insert_ne, lookup_insert_eq by done|].
  all: eexists _, _, _, _, _, _; repeat (split; [eassumption|]).
  all: by rewrite lookup_insert_eq.
Qed.

Lemma call_params_lookup x rrule enabled k :
  k ∉ written_keys →
  (<["rrule" := rrule]> (<["enabled" := enabled]>
     (<["create_on_missing" := VBool true]> (updated_fields x)))) !! k = x !! k.
Proof.
  unfold written_keys. rewrite !not_elem_of_cons. intros (? & ? & ? & ? & _).
  rewrite !lookup_insert_ne by done. by apply updated_fields_other.
Qed.

Lemma call_params_extra_data x rrule enabled :
  (<["rrule" := rrule]> (<["enabled" := enabled]>
     (<["create_on_missing" := VBool true]> (updated_fields x)))) !! "extra_data"
  = updated_fields x !! "extra_data".
Proof. by rewrite !lookup_insert_ne by done. Qed.

Lemma targets_not_written k : k ∈ target_keys → k ∉ written_keys.
Proof.
  unfold target_keys, written_keys. rewrite !elem_of_cons, !elem_of_nil.
  intros [->|[->|[->|[]]]] [?|[?|[?|[?|[]]]]]; done.
Qed.

(** X12. The parameters of the call on the schedule resource are the
    module parameters without state, frequency, frequency_unit and start, as
    [tower_auth_config] left them: every key that is neither a target nor
    written by [main] is passed on unchanged; a target holds the identifier
    its lookup returned, or is absent when its value was falsy; extra_data
    is its YAML text unless it is absent or [None]. *)
Theorem schedule_call_parameters d r p res call :
  schedule_call p res call →
  call ∈ trace (run_module d r).2 →
  ∃ d', tower_auth_config (popped d) = inr d'
    ∧ (∀ k, k ∉ target_keys → k ∉ written_keys → p !! k = d' !! k)
    ∧ (∀ k, k ∈ target_keys →
         ∃ v, d' !! k = Some v
              ∧ if truthy v
                then ∃ found id, ELookup k "name" v (inr found) ∈ trace (run_module d r).2
                                 ∧ found !! "id" = Some id ∧ p !! k = Some id
                else p !! k = None)
    ∧ match d' !! "extra_data" with
      | None => p !! "extra_data" = None
      | Some VNone => p !! "extra_data" = Some VNone
      | Some v => p !! "extra_data" = Some (VStr (yaml_dump v))
      end.
Proof.
  intros Hcall. unfold popped. exec_main d r; rewrite ?app_nil_l; intros Hin.
  all: try by apply elem_of_nil in Hin.
  all: lookup_facts.
  all: try by apply (lookups_no_call _ _ _ _ Hlookups Hcall) in Hin.
  all: apply elem_of_app in Hin as [Hin|Hin];
       [by apply (lookups_no_call _ _ _ _ Hlookups Hcall) in Hin|].
  all: apply list_elem_of_singleton in Hin; subst call.
  all: destruct Hcall as [[= <- <-]|[= <- <-]].
  all: match goal with
       | H : resolve_all _ ?x _ = (_, ?x', _, _) |- _ =>
           destruct (resolve_all_ret _ _ _ _ _ _ identity_map_keys H) as [Hother Hkeys];
           pose proof (updated_fields_extra_data x') as Hextra;
           assert (x' !! "extra_data" = x !! "extra_data") as Hsame
             by (apply Hother, (bool_decide_unpack _); by vm_compute);
           rewrite Hsame in Hextra
       end.
  all: eexists; split; [reflexivity|].
  all: split; [intros k Hk Hw; rewrite call_params_lookup by done; by apply Hother|].
  all: split.
  all: try (intros k Hk;
            destruct (Hkeys k "name" (target_in_identity_map k Hk)) as (v' & Hv & Hrest);
            exists v'; split; [done|];
            destruct (truthy v');
            [destruct Hrest as (found & id & Hev & Hid & Hx);
             exists found, id; split; [apply elem_of_app; by left|]; split; [done|]|];
            by rewrite call_params_lookup by (by apply targets_not_written)).
  all: rewrite call_params_extra_data.
  all: match goal with
       | H : resolve_all _ ?x _ = _ |- _ => destruct (x !! "extra_data") as [[]|]
       end; try done.
  all: by rewrite Hextra.
Qed.

Lemma dispatched_error state json_output e :
  dispatched state json_output (inl e)
  = if is_request_error (class_of e)
    then Exit (FailJson ("Failed to update schedule: " +:+ message e) false)
    else Raise e.
Proof. done. Qed.

(** X13. When the call on the schedule resource raises, the run ends
    with [fail_json], the collaborator's message and [changed=False] if the
    exception is a connection, bad-request or not-found error, and with the
    exception itself, uncaught, if it is of any other class. *)
Theorem remote_error_report d r p e call :
  schedule_call p (inl e) call →
  call ∈ trace (run_module d r).2 →
  (run_module d r).1
  = if is_request_error (class_of e)
    then Exit (FailJson ("Failed to update schedule: " +:+ message e) false)
    else Raise e.
Proof.
  intros Hcall. exec_main d r; rewrite ?app_nil_l; intros Hin.
  all: try by apply elem_of_nil in Hin.
  all: lookup_facts.
  all: try by apply (lookups_no_call _ _ _ _ Hlookups Hcall) in Hin.
  all: apply elem_of_app in Hin as [Hin|Hin];
       [by apply (lookups_no_call _ _ _ _ Hlookups Hcall) in Hin|].
  all: apply list_elem_of_singleton in Hin; subst call.
  all: destruct Hcall as [[= <- ->]|[= <- ->]].
  all: match goal with
       | H : dispatched _ _ (inl _) = _ |- _ => rewrite dispatched_error in H
       end.
  all: destruct (is_request_error (class_of e)); congruence.
Qed.


(** X15. A run that [tower_auth_config] or [tower_check_mode] ends has
    made no name lookup and no call on the schedule resource: both helpers
    run before [update_resources]. (What the helpers send themselves is not
    part of the trace.) *)
Theorem helper_halt_no_call d r why :
  (run_module d r).1 = Halt why →
  trace (run_module d r).2 = []
  ∧ (tower_auth_config (popped d) = inl why ∨ (tower_check_mode r).1 = Some why).
Proof.
  unfold popped. exec_main d r; rewrite ?app_nil_l; intros Hout; try discriminate.
  all: try (match goal with
            | H : dispatched _ _ _ = Halt _ |- _ =>
                unfold dispatched in H; repeat case_match; discriminate
            end).
  all: try (match goal with
            | H : resolve_all _ _ _ = (Halt _, _, _, _) |- _ =>
                by apply resolve_all_spec in H
            end).
  all: injection Hout as ->; split; [done|].
  all: first [by left|by right].
Qed.

(** X16. [main] pops state, frequency, frequency_unit and start without
    a default: when one of them is missing from the parameters the run
    raises [KeyError] before any remote call. *)
Theorem missing_parameter d r k :
  k ∈ popped_keys →
  d !! k = None →
  ∃ e, (run_module d r).1 = Raise e ∧ class_of e = KeyError
       ∧ trace (run_module d r).2 = [].
Proof.
  unfold popped_keys. rewrite !elem_of_cons, elem_of_nil. intros Hk Hnone.
  exec_main d r; rewrite ?app_nil_l.
  all: repeat match goal with
       | H : delete _ _ !! _ = _ |- _ => rewrite lookup_delete_ne in H by done
       end.
  all: try by eexists.
  all: destruct Hk as [->|[->|[->|[->|[]]]]]; congruence.
Qed.


End Proofs.

(** * The theorems at work on the test double *)



(** X18 at work on the timestamp of the module's own example. *)
Lemma parse_datetime_string_compact_witness :
  @parse_datetime_string demo_tower (VStr "2018-01-01T00:00:00Z") demo_world
  = (Ret (compact "2018-01-01T00:00:00Z"), demo_world).
Proof.
  apply (@parse_datetime_string_compact demo_tower "2018-01-01T00:00:00Z" demo_world).
  - vm_compute; reflexivity.
  - vm_compute; reflexivity.
  - by vm_compute.
Defined.

(** C6 at work: no project is called nope. *)
Lemma lookup_not_found_is_fatal_witness :
  (demo_run (VStr "present") (VStr "nope") (VStr "2018-01-01T00:00:00Z")).1
  = Exit (FailJson ("Failed to update schedule: "
                    +:+ message (mk_exn NotFound "The requested object could not be found."))
            false)
  ∧ Forall (λ ev, is_lookup ev = true)
      (trace (demo_run (VStr "present") (VStr "nope") (VStr "2018-01-01T00:00:00Z")).2).
Proof.
  apply (@lookup_not_found_is_fatal demo_tower
           (demo_params (VStr "present") (VStr "nope") (VStr "2018-01-01T00:00:00Z"))
           demo_remote "project" "name" (VStr "nope")
           (mk_exn NotFound "The requested object could not be found.")).
  - vm_compute. apply list_elem_of_here.
  - reflexivity.
Defined.

(** C7 at work: a disabled schedule is sent with [enabled] false. *)
Lemma enabled_flag_witness :
  ∃ p res,
    EModify p res
    ∈ trace (demo_run (VStr "disabled") (VStr "git project") (VStr "2018-01-01T00:00:00Z")).2
    ∧ p !! "enabled" = Some (VBool false).
Proof.
  assert (∃ p res,
            EModify p res
            ∈ trace (demo_run (VStr "disabled") (VStr "git project")
                       (VStr "2018-01-01T00:00:00Z")).2) as (p & res & Hin).
  { vm_compute. do 2 eexists. apply list_elem_of_further, list_elem_of_here. }
  exists p, res. split; [exact Hin|].
  apply (@enabled_flag demo_tower
           (demo_params (VStr "disabled") (VStr "git project") (VStr "2018-01-01T00:00:00Z"))
           demo_remote "disabled" p res); [by vm_compute|by left].
Defined.



(** C9 at work on the failure of a lookup. *)
Lemma failure_report_unchanged_witness :
  ∃ msg changed,
    (demo_run (VStr "present") (VStr "nope") (VStr "2018-01-01T00:00:00Z")).1
    = Exit (FailJson msg changed) ∧ changed = false.
Proof.
  assert (∃ msg changed,
            (demo_run (VStr "present") (VStr "nope") (VStr "2018-01-01T00:00:00Z")).1
            = Exit (FailJson msg changed)) as (msg & changed & Hout).
  { vm_compute. by do 2 eexists. }
  exists msg, changed. split; [exact Hout|].
  exact (@failure_report_unchanged demo_tower _ _ msg changed Hout).
Defined.

(** C10 at work on a heap that holds one dictionary with extra data. *)
Lemma update_fields_frame_witness :
  ∃ q d' w',
    @update_fields demo_tower 0%nat
      (@mk_world demo_tower [{["extra_data" := VObj 1%positive]}] demo_remote [])
    = (Ret q, w')
    ∧ heap w' !! 0%nat = Some ({["extra_data" := VObj 1%positive]} : dict)
    ∧ heap w' !! q = Some d'
    ∧ d' !! "extra_data" = Some (VStr "{}").
Proof.
  destruct (@update_fields_frame demo_tower
              (@mk_world demo_tower [{["extra_data" := VObj 1%positive]}] demo_remote [])
              0%nat {["extra_data" := VObj 1%positive]} eq_refl)
    as (q & d' & w' & Hrun & _ & Hq & _ & Hp & _ & Hextra & _).
  exists q, d', w'. repeat split; done.
Defined.

(** * The further properties at work on the test doubles *)

(** X1 at work: February has no 30th day. *)
Lemma parse_datetime_string_rejects_invalid_witness :
  ∃ msg, @parse_datetime_string demo_tower (VStr "2018-02-30T00:00:00Z") demo_world
         = (Exit (FailJson msg false), demo_world)
         ∧ contains msg "2018-02-30T00:00:00Z".
Proof.
  apply (@parse_datetime_string_rejects_invalid demo_tower "2018-02-30T00:00:00Z" demo_world);
    vm_compute; reflexivity.
Defined.

(** X2 at work on a timestamp of the year 999: the result is the compact
    form of a date without the leading zero of its year. *)
Lemma parse_datetime_string_result_witness :
  ∃ c, has_shape compact_pattern c = true
       ∧ valid_compact c = true
       ∧ "9991231T235959Z" = pretty (number_at 0 4 c) +:+ substring 4 12 c.
Proof.
  assert (@parse_datetime_string demo_tower (VStr "0999-12-31T23:59:59Z") demo_world
          = (Ret "9991231T235959Z", demo_world)) as Hrun by (vm_compute; reflexivity).
  destruct (@parse_datetime_string_result demo_tower _ _ _ _ Hrun)
    as (_ & c & Hshape & Hvalid & Htext & _).
  by exists c.
Defined.

(** X3 at work: a time zone name after the Z. *)
Lemma parse_datetime_string_trailing_witness :
  ∃ msg, @parse_datetime_string demo_tower (VStr ("2018-01-01T00:00:00Z" +:+ " UTC"))
           demo_world
         = (Exit (FailJson msg false), demo_world)
         ∧ contains msg ("2018-01-01T00:00:00Z" +:+ " UTC").
Proof.
  apply (@parse_datetime_string_trailing demo_tower "2018-01-01T00:00:00Z" " UTC" demo_world).
  - vm_compute; reflexivity.
  - discriminate.
Defined.

(** X4 at work: hour is a unit, week is not. *)
Lemma build_rrule_unit_choices_witness :
  (∃ rule, @build_rrule demo_tower "20180101T000000Z" (VInt 2) (VStr "hour") = inr rule)
  ∧ @build_rrule demo_tower "20180101T000000Z" (VInt 2) (VStr "week")
    = inl (key_error "week").
Proof.
  split.
  - apply (proj1 (@build_rrule_unit_choices demo_tower "20180101T000000Z" (VInt 2) "hour")).
    apply (bool_decide_unpack _). by vm_compute.
  - apply (proj2 (@build_rrule_unit_choices demo_tower "20180101T000000Z" (VInt 2) "week")).
    apply (bool_decide_unpack _). by vm_compute.
Defined.

(** X6 at work: the copy is new, and the limit is as it was. *)
Lemma update_resources_frame_witness :
  ∃ o (w' : @world demo_tower), @update_resources demo_tower 0%nat (demo_heap (VStr "git project")) = (o, w')
    ∧ (∀ l x, heap (demo_heap (VStr "git project")) !! l = Some x → heap w' !! l = Some x)
    ∧ (∀ q, o = Ret q →
         heap (demo_heap (VStr "git project")) !! q = None
         ∧ ∃ d', heap w' !! q = Some d'
                 ∧ ∀ k, k ∉ target_keys →
                        d' !! k
                        = popped (demo_params (VStr "present") (VStr "git project")
                                    (VStr "2018-01-01T00:00:00Z")) !! k).
Proof.
  exact (@update_resources_frame demo_tower (demo_heap (VStr "git project")) 0%nat _ eq_refl).
Defined.

(** X7 at work: the project is resolved, the other targets are unset. *)
Lemma update_resources_targets_witness :
  ∃ q (w' : @world demo_tower) d',
    @update_resources demo_tower 0%nat (demo_heap (VStr "git project")) = (Ret q, w')
    ∧ heap w' !! q = Some d'
    ∧ ∀ k, k ∈ target_keys →
        ∃ v, popped (demo_params (VStr "present") (VStr "git project")
                       (VStr "2018-01-01T00:00:00Z")) !! k = Some v
             ∧ if @truthy demo_tower v
               then ∃ res id, ELookup k "name" v (inr res) ∈ trace w'
                              ∧ res !! "id" = Some id ∧ d' !! k = Some id
               else d' !! k = None.
Proof.
  assert (∃ q (w' : @world demo_tower), @update_resources demo_tower 0%nat (demo_heap (VStr "git project"))
                  = (Ret q, w')) as (q & w' & Hrun)
    by (vm_compute; by do 2 eexists).
  destruct (@update_resources_targets demo_tower (demo_heap (VStr "git project")) w'
              0%nat q _ eq_refl Hrun)
    as (d' & Hq & Hkeys).
  by exists q, w', d'.
Defined.

(** X8 at work: no project is called nope. *)
Lemma update_resources_lookup_raises_witness :
  ∃ w' : @world demo_tower, @update_resources demo_tower 0%nat (demo_heap (VStr "nope"))
        = (Exit (FailJson ("Failed to update schedule: "
                           +:+ "The requested object could not be found.") false), w').
Proof.
  assert (∃ o (w' : @world demo_tower), @update_resources demo_tower 0%nat (demo_heap (VStr "nope")) = (o, w')
                  ∧ trace w'
                    = trace (demo_heap (VStr "nope"))
                      ++ [ELookup "project" "name" (VStr "nope")
                            (inl (mk_exn NotFound "The requested object could not be found."))])
    as (o & w' & Hrun & Htrace)
    by (vm_compute; by do 2 eexists).
  exists w'. rewrite Hrun. f_equal.
  exact (@update_resources_lookup_raises demo_tower (demo_heap (VStr "nope")) w' 0%nat _ o _
           "project" "name" (VStr "nope")
           (mk_exn NotFound "The requested object could not be found.")
           eq_refl Hrun Htrace (list_elem_of_here _ _)).
Defined.

(** X9 at work: one lookup, of the project. *)
Lemma update_resources_lookups_witness :
  ∃ evs : list event, Forall (λ ev, ∃ k v res, ev = ELookup k "name" v res ∧ k ∈ target_keys
                         ∧ popped (demo_params (VStr "present") (VStr "git project")
                                     (VStr "2018-01-01T00:00:00Z")) !! k = Some v
                         ∧ @truthy demo_tower v = true) evs
         ∧ (length evs ≤ 3)%nat ∧ (0 < length evs)%nat.
Proof.
  assert (∃ o (w' : @world demo_tower) ev, @update_resources demo_tower 0%nat (demo_heap (VStr "git project"))
                     = (o, w')
                     ∧ trace w' = trace (demo_heap (VStr "git project")) ++ [ev])
    as (o & w' & ev & Hrun & Htrace)
    by (vm_compute; by do 3 eexists).
  exists [ev].
  destruct (@update_resources_lookups demo_tower (demo_heap (VStr "git project")) w'
              0%nat _ o [ev] eq_refl Hrun Htrace)
    as [Hall Hlen].
  split; [exact Hall|]. split; [exact Hlen|]. cbn. lia.
Defined.

(** X11 at work: the call of a run of the module's own example carries the
    rule built from its start, frequency and unit. *)
Lemma schedule_call_rrule_witness :
  ∃ p res,
    EModify p res
    ∈ trace (demo_run (VStr "present") (VStr "git project") (VStr "2018-01-01T00:00:00Z")).2
    ∧ p !! "create_on_missing" = Some (VBool true)
    ∧ ∃ rrule, p !! "rrule" = Some (VStr rrule).
Proof.
  assert (∃ p res,
            EModify p res
            ∈ trace (demo_run (VStr "present") (VStr "git project")
                       (VStr "2018-01-01T00:00:00Z")).2) as (p & res & Hin).
  { vm_compute. do 2 eexists. apply list_elem_of_further, list_elem_of_here. }
  exists p, res. split; [exact Hin|].
  destruct (@schedule_call_rrule demo_tower
              (demo_params (VStr "present") (VStr "git project") (VStr "2018-01-01T00:00:00Z"))
              demo_remote p res (EModify p res) (or_introl eq_refl) Hin)
    as (Hcreate & _ & _ & _ & _ & _ & rrule & _ & _ & _ & _ & _ & _ & Hrrule).
  split; [exact Hcreate|]. by exists rrule.
Defined.

(** X12 at work: the name of the schedule reaches the call as it was
    given. *)
Lemma schedule_call_parameters_witness :
  ∃ p res d',
    EModify p res
    ∈ trace (demo_run (VStr "present") (VStr "git project") (VStr "2018-01-01T00:00:00Z")).2
    ∧ @tower_auth_config demo_tower
        (popped (demo_params (VStr "present") (VStr "git project")
                   (VStr "2018-01-01T00:00:00Z"))) = inr d'
    ∧ p !! "name" = d' !! "name".
Proof.
  assert (∃ p res,
            EModify p res
            ∈ trace (demo_run (VStr "present") (VStr "git project")
                       (VStr "2018-01-01T00:00:00Z")).2) as (p & res & Hin).
  { vm_compute. do 2 eexists. apply list_elem_of_further, list_elem_of_here. }
  destruct (@schedule_call_parameters demo_tower
              (demo_params (VStr "present") (VStr "git project") (VStr "2018-01-01T00:00:00Z"))
              demo_remote p res (EModify p res) (or_introl eq_refl) Hin)
    as (d' & Hauth & Hother & _).
  exists p, res, d'. split; [exact Hin|]. split; [exact Hauth|].
  apply Hother; apply (bool_decide_unpack _); by vm_compute.
Defined.

(** X13 at work: the schedule resource is out of reach. *)
Lemma remote_error_report_witness :
  (@run_module down_tower
     (demo_params (VStr "present") (VStr "git project") (VStr "2018-01-01T00:00:00Z"))
     0%nat).1
  = Exit (FailJson ("Failed to update schedule: "
                    +:+ "There was a network error of some kind.") false).
Proof.
  assert (∃ p,
            EModify p (inl (mk_exn ConnectionError "There was a network error of some kind."))
            ∈ trace (@run_module down_tower
                       (demo_params (VStr "present") (VStr "git project")
                          (VStr "2018-01-01T00:00:00Z")) 0%nat).2) as (p & Hin).
  { vm_compute. eexists. apply list_elem_of_further, list_elem_of_here. }
  exact (@remote_error_report down_tower _ _ p _ _ (or_introl eq_refl) Hin).
Defined.


(** X15 at work: a run in check mode makes no remote call. *)
Lemma helper_halt_no_call_witness :
  trace (@run_module check_tower
           (demo_params (VStr "present") (VStr "git project") (VStr "2018-01-01T00:00:00Z"))
           0%nat).2 = [].
Proof.
  assert ((@run_module check_tower
             (demo_params (VStr "present") (VStr "git project")
                (VStr "2018-01-01T00:00:00Z")) 0%nat).1 = Halt "check mode") as Hout
    by (by vm_compute).
  exact (proj1 (@helper_halt_no_call check_tower _ _ _ Hout)).
Defined.

(** X16 at work: parameters without a start. *)
Lemma missing_parameter_witness :
  ∃ e, (@run_module demo_tower
          (delete "start" (demo_params (VStr "present") (VStr "git project") VNone))
          demo_remote).1 = Raise e
       ∧ class_of e = KeyError
       ∧ trace (@run_module demo_tower
                  (delete "start" (demo_params (VStr "present") (VStr "git project") VNone))
                  demo_remote).2 = [].
Proof.
  apply (@missing_parameter demo_tower _ demo_remote "start").
  - apply (bool_decide_unpack _). by vm_compute.
  - by vm_compute.
Defined.

